(** * Hantverkar Dashboard backend: a shallow embedding of [main.py] and
    [schemas.py], and the properties of its order, customer and
    serialization logic.

    Python values are embedded as the inductive [value]; dictionaries are
    finite maps from strings ([gmap string value]); floats are binary64
    ([PrimFloat.float]), which is what Python's [float] is.  Handlers run in
    a state-and-exception monad over the document store. *)

From Stdlib Require Import ZArith NArith Floats SpecFloat String Ascii List Bool Lia.
From Stdlib.Strings Require Byte.
From stdpp Require Import gmap strings list fin_maps.

Local Open Scope Z_scope.

(* ===================================================================== *)
(** * Python and BSON values *)
(* ===================================================================== *)

Module Hex.

(** Value of one hexadecimal digit, in either case. *)
Definition digit_val (c : ascii) : option N :=
  let n := N_of_ascii c in
  if ((48 <=? n) && (n <=? 57))%N then Some (n - 48)%N
  else if ((97 <=? n) && (n <=? 102))%N then Some (n - 87)%N
  else if ((65 <=? n) && (n <=? 70))%N then Some (n - 55)%N
  else None.

(** ASCII white space: the space and the characters 9 to 13. *)
Definition is_space (c : ascii) : bool :=
  let n := N_of_ascii c in
  ((n =? 32) || ((9 <=? n) && (n <=? 13)))%N.

Definition byte_of (n : N) : Byte.byte :=
  default Byte.x00 (Byte.of_N n).

(** [bytes.fromhex]: two digits for each byte; white space is skipped
    before a byte, not between its two digits; any other character, or a
    digit left alone, is an error. *)
Fixpoint fromhex (s : list ascii) : option (list Byte.byte) :=
  match s with
  | [] => Some []
  | c :: s' =>
      if is_space c then fromhex s'
      else
        match digit_val c, s' with
        | Some top, d :: s'' =>
            match digit_val d with
            | Some bot => cons (byte_of (16 * top + bot)) <$> fromhex s''
            | None => None
            end
        | _, _ => None
        end
  end.

Definition digit (d : N) : ascii :=
  ascii_of_N (if (d <? 10)%N then 48 + d else 87 + d)%N.

(** [binascii.hexlify]: two lower-case digits for each byte. *)
Definition hexlify (bs : list Byte.byte) : list ascii :=
  flat_map (fun b => [digit (Byte.to_N b / 16)%N; digit (Byte.to_N b mod 16)%N]) bs.

Fixpoint bytes_eqb (a b : list Byte.byte) : bool :=
  match a, b with
  | [], [] => true
  | x :: a', y :: b' => (Byte.to_N x =? Byte.to_N y)%N && bytes_eqb a' b'
  | _, _ => false
  end.

End Hex.

(** [bson.ObjectId]: the bytes of the identifier.  The store generates
    identifiers of twelve bytes; [ObjectId(s)] can make shorter ones. *)
Record ObjectId := mkObjectId { oid_binary : list Byte.byte }.

Definition ObjectId_eqb (a b : ObjectId) : bool :=
  Hex.bytes_eqb (oid_binary a) (oid_binary b).

(** [ObjectId(s)] for a [str]: [s] has 24 characters and [bytes.fromhex]
    accepts it; anything else is an [InvalidId].  So 24 hexadecimal digits
    give twelve bytes, and a string of 24 characters with white space
    between its pairs of digits gives fewer.  A character outside ASCII
    is one character for Python and several bytes here; the string is
    refused either way, there for the character and here for the bytes. *)
Definition ObjectId_of_str (s : string) : option ObjectId :=
  if (String.length s =? 24)%nat
  then mkObjectId <$> Hex.fromhex (list_ascii_of_string s)
  else None.

(** [str(oid)]: the bytes in lower-case hexadecimal digits. *)
Definition ObjectId_str (o : ObjectId) : string :=
  string_of_list_ascii (Hex.hexlify (oid_binary o)).

Inductive value :=
| VNone
| VBool (b : bool)
| VInt (z : Z)
| VFloat (f : float)
| VStr (s : string)
| VOid (o : ObjectId)
| VDate (year month day : Z)
| VList (l : list value)
| VDict (d : gmap string value).

Abbreviation doc := (gmap string value).

(** What the embedding takes from outside the repository: the text Python's
    [str()] gives for a value that is neither a string nor an [ObjectId],
    Python's parsing of a string by [float()], the identifier that
    [ObjectId()] makes up when it is given [None], and the store's regular
    expression engine wherever [Regex] below does not decide: whether a
    pattern compiles under given options, and whether it is found in a
    subject. *)
Class Runtime := {
  ObjectId_generate : ObjectId;
  py_repr : value -> string;
  py_float_of_str : string -> option float;
  pcre_compiles : string -> string -> bool;
  pcre_search : string -> string -> string -> bool
}.

(** Python exceptions that the handlers can raise. *)
Inductive exn :=
| HTTPException (status_code : Z) (detail : string)
| RequestValidationError
| TypeError
| ValueError
| InvalidId
| AttributeError
| OverflowError
| OperationFailure.

Inductive result (A : Type) :=
| Ok (a : A)
| Raise (e : exn).
Arguments Ok {A} a.
Arguments Raise {A} e.

#[global] Instance result_ret : MRet result := fun A a => Ok a.
#[global] Instance result_bind : MBind result :=
  fun A B f r => match r with Ok a => f a | Raise e => Raise e end.
#[global] Instance result_fmap : FMap result :=
  fun A B f r => match r with Ok a => Ok (f a) | Raise e => Raise e end.

(** ** Builtins *)

(** Truth value of a Python object ([if x:], [x and y], [not x]). *)
Definition truthy (v : value) : bool :=
  match v with
  | VNone => false
  | VBool b => b
  | VInt z => negb (z =? 0)
  | VFloat f => negb (PrimFloat.eqb f 0)
  | VStr s => negb (String.eqb s "")
  | VOid _ => true
  | VDate _ _ _ => true
  | VList l => match l with [] => false | _ => true end
  | VDict d => negb (Nat.eqb (size d) 0)
  end.

(** [d.get(k)] and [d.get(k, dflt)]. *)
Definition dict_get (d : doc) (k : string) (dflt : value) : value :=
  default dflt (d !! k).

(** [float(int)]: nearest binary64, ties to even; [OverflowError] beyond
    the range. *)
Definition float_of_int (z : Z) : result float :=
  match binary_normalize prec emax z 0 false with
  | S754_infinity _ => Raise OverflowError
  | sf => Ok (SF2Prim sf)
  end.

Section Builtins.
Context `{Runtime}.

(** [str(v)]. *)
Definition py_str (v : value) : string :=
  match v with
  | VStr s => s
  | VOid o => ObjectId_str o
  | _ => py_repr v
  end.

(** [float(v)]. *)
Definition py_float (v : value) : result float :=
  match v with
  | VFloat f => Ok f
  | VInt z => float_of_int z
  | VBool b => Ok (if b then 1%float else 0%float)
  | VStr s =>
      match py_float_of_str s with
      | Some f => Ok f
      | None => Raise ValueError
      end
  | VNone | VOid _ | VDate _ _ _ | VList _ | VDict _ => Raise TypeError
  end.

End Builtins.

(** Quotient of [n] by [d] rounded to the nearest integer, ties to the even
    one ([0 <= n], [0 < d]). *)
Definition div_half_even (n d : Z) : Z :=
  let (q, r) := Z.div_eucl n d in
  match Z.compare (2 * r) d with
  | Lt => q
  | Gt => q + 1
  | Eq => if Z.even q then q else q + 1
  end.

(** [round(x, 2)] on a float.  CPython rounds the exact binary value of [x]
    to two decimals, ties to even, and returns the binary64 nearest to that
    decimal; zeros, infinities and NaN round to themselves. *)
Definition round2 (x : float) : float :=
  match Prim2SF x with
  | S754_finite s m e =>
      let hundredths :=
        if 0 <=? e then Zpos m * 100 * 2 ^ e
        else div_half_even (Zpos m * 100) (2 ^ (- e)) in
      SF2Prim
        match hundredths with
        | Zpos c => SFdiv prec emax (S754_finite s c 0) (S754_finite false 100 0)
        | _ => S754_zero s
        end
  | _ => x
  end.

(* ===================================================================== *)
(** * schemas.py *)
(* ===================================================================== *)

Record Customer := {
  cust_name : string;
  cust_email : option string;
  cust_phone : option string;
  cust_address : option string;
  cust_company : option string;
  cust_notes : option string
}.

Record Installer := {
  inst_name : string;
  inst_email : option string;
  inst_phone : option string;
  inst_skills : option (list string);
  inst_active : bool
}.

Record Material := {
  mat_sku : string;
  mat_name : string;
  mat_unit : string;
  mat_price : float;
  mat_stock : Z;
  mat_supplier : option string
}.

Record OrderItem := {
  material_id : string;
  quantity : float;
  unit_price : option float
}.

Record Order := {
  customer_id : string;
  installer_id : option string;
  items : list OrderItem;
  status : string;
  scheduled_date : option (Z * Z * Z);
  total : option float;
  notes : option string
}.

(** The fields of an order as a request gives them: [None] is a field left
    out of the body. *)
Record OrderFields := {
  f_customer_id : string;
  f_installer_id : option string;
  f_items : option (list OrderItem);
  f_status : option string;
  f_scheduled_date : option (Z * Z * Z);
  f_total : option float;
  f_notes : option string
}.

(** [Field(..., ge=0)] on an optional float. *)
Definition ge0 (x : option float) : bool :=
  match x with
  | None => true
  | Some f => PrimFloat.leb 0 f
  end.

(** Constraints of [OrderItem]: [quantity > 0], [unit_price >= 0]. *)
Definition OrderItem_ok (it : OrderItem) : bool :=
  PrimFloat.ltb 0 (quantity it) && ge0 (unit_price it).

(** Construction of an [Order] from the fields given: the defaults of the
    class ([items] empty, [status] ["ny"]) and its constraints. *)
Definition Order_init (f : OrderFields) : result Order :=
  let its := default [] (f_items f) in
  if forallb OrderItem_ok its && ge0 (f_total f)
  then Ok {| customer_id := f_customer_id f;
             installer_id := f_installer_id f;
             items := its;
             status := default "ny"%string (f_status f);
             scheduled_date := f_scheduled_date f;
             total := f_total f;
             notes := f_notes f |}
  else Raise RequestValidationError.

(** [item.unit_price = p] and [payload.items], [payload.total] updated. *)
Definition set_unit_price (it : OrderItem) (p : float) : OrderItem :=
  {| material_id := material_id it; quantity := quantity it; unit_price := Some p |}.

Definition set_items (o : Order) (its : list OrderItem) : Order :=
  {| customer_id := customer_id o; installer_id := installer_id o; items := its;
     status := status o; scheduled_date := scheduled_date o; total := total o;
     notes := notes o |}.

Definition set_total (o : Order) (t : option float) : Order :=
  {| customer_id := customer_id o; installer_id := installer_id o; items := items o;
     status := status o; scheduled_date := scheduled_date o; total := t;
     notes := notes o |}.

(** ** [model_dump]: a model as the dictionary that is stored *)

Definition opt_value {A} (f : A -> value) (x : option A) : value :=
  match x with
  | Some a => f a
  | None => VNone
  end.

Definition Customer_dump (c : Customer) : doc :=
  <["name" := VStr (cust_name c)]>
  (<["email" := opt_value VStr (cust_email c)]>
  (<["phone" := opt_value VStr (cust_phone c)]>
  (<["address" := opt_value VStr (cust_address c)]>
  (<["company" := opt_value VStr (cust_company c)]>
  (<["notes" := opt_value VStr (cust_notes c)]> ∅))))).

Definition Installer_dump (i : Installer) : doc :=
  <["name" := VStr (inst_name i)]>
  (<["email" := opt_value VStr (inst_email i)]>
  (<["phone" := opt_value VStr (inst_phone i)]>
  (<["skills" := opt_value (fun l => VList (VStr <$> l)) (inst_skills i)]>
  (<["active" := VBool (inst_active i)]> ∅)))).

Definition Material_dump (m : Material) : doc :=
  <["sku" := VStr (mat_sku m)]>
  (<["name" := VStr (mat_name m)]>
  (<["unit" := VStr (mat_unit m)]>
  (<["price" := VFloat (mat_price m)]>
  (<["stock" := VInt (mat_stock m)]>
  (<["supplier" := opt_value VStr (mat_supplier m)]> ∅))))).

Definition OrderItem_dump (it : OrderItem) : value :=
  VDict (<["material_id" := VStr (material_id it)]>
        (<["quantity" := VFloat (quantity it)]>
        (<["unit_price" := opt_value VFloat (unit_price it)]> ∅))).

Definition Order_dump (o : Order) : doc :=
  <["customer_id" := VStr (customer_id o)]>
  (<["installer_id" := opt_value VStr (installer_id o)]>
  (<["items" := VList (OrderItem_dump <$> items o)]>
  (<["status" := VStr (status o)]>
  (<["scheduled_date" := opt_value (fun '(y, m, d) => VDate y m d) (scheduled_date o)]>
  (<["total" := opt_value VFloat (total o)]>
  (<["notes" := opt_value VStr (notes o)]> ∅)))))).

(* ===================================================================== *)
(** * The document store *)
(* ===================================================================== *)

(** Regular expressions of the store.  The embedding decides one fragment
    itself: a pattern of ASCII characters with no metacharacter other than
    the dot, searched in a subject of ASCII characters, with or without
    the option [i].  There a character is a byte and the letters that fold
    are the 26 ASCII ones.  Any other pattern, and any subject with a
    character outside ASCII (where the engine folds letters such as [å]
    and matches whole characters, not bytes), goes to the engine. *)
Module Regex.

Inductive atom :=
| Lit (c : ascii)
| AnyChar.

Definition is_meta (c : ascii) : bool :=
  existsb (Ascii.eqb c) (list_ascii_of_string "\^$.[]|()?*+{}").

Definition is_ascii (c : ascii) : bool := (N_of_ascii c <? 128)%N.

Definition ascii_text (s : string) : bool :=
  forallb is_ascii (list_ascii_of_string s).

(** A character that stands for itself in a pattern. *)
Definition is_literal (c : ascii) : bool :=
  is_ascii c && negb (Ascii.eqb c "000") && negb (is_meta c).

(** The pattern as a sequence of atoms, when it is in the fragment. *)
Fixpoint compile (p : list ascii) : option (list atom) :=
  match p with
  | [] => Some []
  | c :: p' =>
      if Ascii.eqb c "." then cons AnyChar <$> compile p'
      else if is_literal c then cons (Lit c) <$> compile p'
      else None
  end.

Definition lower (c : ascii) : ascii :=
  let n := N_of_ascii c in
  if ((65 <=? n) && (n <=? 90))%N then ascii_of_N (n + 32) else c.

Definition atom_matches (ci : bool) (a : atom) (c : ascii) : bool :=
  match a with
  | Lit x => if ci then Ascii.eqb (lower x) (lower c) else Ascii.eqb x c
  | AnyChar => negb (Ascii.eqb c "010")
  end.

(** The atoms match a prefix of [s]. *)
Fixpoint match_here (ci : bool) (atoms : list atom) (s : list ascii) : bool :=
  match atoms, s with
  | [], _ => true
  | a :: atoms', c :: s' => atom_matches ci a c && match_here ci atoms' s'
  | _ :: _, [] => false
  end.

(** The atoms match somewhere in [s] (an unanchored search). *)
Fixpoint search (ci : bool) (atoms : list atom) (s : list ascii) : bool :=
  match_here ci atoms s ||
  match s with
  | [] => false
  | _ :: s' => search ci atoms s'
  end.

(** [{"$regex": pattern, "$options": options}] as a test on strings;
    [None] when the pattern does not compile. *)
Definition matcher `{Runtime} (pattern options : string) : option (string -> bool) :=
  let ci :=
    if String.eqb options "i" then Some true
    else if String.eqb options "" then Some false
    else None in
  match ci, compile (list_ascii_of_string pattern) with
  | Some ci, Some atoms =>
      Some (fun subject =>
              if ascii_text subject
              then search ci atoms (list_ascii_of_string subject)
              else pcre_search pattern options subject)
  | _, _ =>
      if pcre_compiles pattern options
      then Some (pcre_search pattern options)
      else None
  end.

End Regex.

(** The conditions on one field that the handlers put in a filter. *)
Inductive cond :=
| EqStr (s : string)
| EqOid (o : ObjectId)
| EqBool (b : bool)
| Regex (pattern options : string).

(** A filter: a dictionary of field conditions (all must hold), or
    [{"$or": [...]}] over such dictionaries. *)
Inductive filter :=
| Fields (cs : list (string * cond))
| AnyOf (alts : list (list (string * cond))).

Abbreviation database := (gmap string (list (gmap string value))).

Section Store.
Context `{Runtime}.

Definition cond_pred (c : cond) : result (value -> bool) :=
  match c with
  | EqStr s => Ok (fun v => match v with VStr s' => String.eqb s s' | _ => false end)
  | EqOid o => Ok (fun v => match v with VOid o' => ObjectId_eqb o o' | _ => false end)
  | EqBool b => Ok (fun v => match v with VBool b' => Bool.eqb b b' | _ => false end)
  | Regex p o =>
      match Regex.matcher p o with
      | Some f => Ok (fun v => match v with VStr s => f s | _ => false end)
      | None => Raise OperationFailure
      end
  end.

(** A condition holds of a field when it holds of its value or, for an
    array, of one of its elements; never of a missing field. *)
Definition field_holds (p : value -> bool) (d : doc) (k : string) : bool :=
  match d !! k with
  | Some (VList l) => existsb p l
  | Some v => p v
  | None => false
  end.

Fixpoint all_of (cs : list (string * cond)) : result (doc -> bool) :=
  match cs with
  | [] => Ok (fun _ => true)
  | (k, c) :: cs' =>
      p ← cond_pred c;
      q ← all_of cs';
      Ok (fun d => field_holds p d k && q d)
  end.

Fixpoint any_of (alts : list (list (string * cond))) : result (doc -> bool) :=
  match alts with
  | [] => Ok (fun _ => false)
  | cs :: alts' =>
      p ← all_of cs;
      q ← any_of alts';
      Ok (fun d => p d || q d)
  end.

Definition filter_pred (f : filter) : result (doc -> bool) :=
  match f with
  | Fields cs => all_of cs
  | AnyOf alts => any_of alts
  end.

End Store.

(** ** Handlers: state of the store, and exceptions *)

Definition M (A : Type) : Type := database -> database * result A.

#[global] Instance M_ret : MRet M := fun A a db => (db, Ok a).
#[global] Instance M_bind : MBind M :=
  fun A B f m db =>
    match m db with
    | (db', Ok a) => f a db'
    | (db', Raise e) => (db', Raise e)
    end.

Definition raise {A} (e : exn) : M A := fun db => (db, Raise e).
Definition lift {A} (r : result A) : M A := fun db => (db, r).

(** [db[name]]: a collection that was never written is empty. *)
Definition collection (db : database) (name : string) : list doc :=
  default [] (db !! name).

Section Gateway.
Context `{Runtime}.

(** [db[name].find(f)], as a list. *)
Definition find (name : string) (f : filter) : M (list doc) :=
  fun db => (db, p ← filter_pred f; Ok (List.filter p (collection db name))).

(** [db[name].find_one(f)]: the first match, else [None]. *)
Definition find_one (name : string) (f : filter) : M (option doc) :=
  fun db => (db, p ← filter_pred f; Ok (List.find p (collection db name))).

(** [db[name].insert_one(d)]; [new_id] is the identifier that the store
    generates for the document. *)
Definition insert_one (new_id : ObjectId) (name : string) (d : doc) : M ObjectId :=
  fun db =>
    (<[name := collection db name ++ [<["_id" := VOid new_id]> d]]> db, Ok new_id).

(** Modelled from the spec: [create_document] of [database.py], which is
    not among the sources.  §4.2: [insert(collectionName, document) ->
    generatedId], with no validation or transformation; the handlers
    return the identifier as a string. *)
Definition create_document (new_id : ObjectId) (name : string) (d : doc) : M string :=
  o ← insert_one new_id name d;
  mret (ObjectId_str o).

(** Modelled from the spec: [get_documents] of [database.py], which is
    not among the sources.  §4.2: [find(collectionName, filter) ->
    sequence of documents], in the order of the store. *)
Definition get_documents (name : string) (f : filter) : M (list doc) :=
  find name f.

End Gateway.

(* ===================================================================== *)
(** * main.py *)
(* ===================================================================== *)

(** The body of a successful [POST /orders]. *)
Record OrderCreated := {
  created_id : string;
  created_total : float
}.

Section Main.
Context `{Runtime}.

(** [ObjectId(v)] of the [bson] library. *)
Definition ObjectId_new (v : value) : result ObjectId :=
  match v with
  | VNone => Ok ObjectId_generate
  | VOid o => Ok o
  | VStr s =>
      match ObjectId_of_str s with
      | Some o => Ok o
      | None => Raise InvalidId
      end
  | _ => Raise TypeError
  end.

(** [oid]: any exception of [ObjectId] becomes a 400. *)
Definition oid (id_str : value) : result ObjectId :=
  match ObjectId_new id_str with
  | Ok o => Ok o
  | Raise _ => Raise (HTTPException 400 "Ogiltigt ID")
  end.

(** ** Helpers *)

(** One turn of the loop of [serialize]: [item.get] needs a dictionary. *)
Definition serialize_item (item : value) : result value :=
  match item with
  | VDict m =>
      match m !! "material_id" with
      | Some (VOid o) => Ok (VDict (<["material_id" := VStr (py_str (VOid o))]> m))
      | _ => Ok item
      end
  | _ => Raise AttributeError
  end.

(** [for item in doc["items"]: ...], giving the value of ["items"] after
    the loop.  A string or a dictionary yields strings, which have no
    [get]; the other values are not iterable. *)
Definition serialize_items (its : value) : result value :=
  match its with
  | VList l => VList <$> mapM serialize_item l
  | VStr s => if String.eqb s "" then Ok its else Raise AttributeError
  | VDict d => if Nat.eqb (size d) 0 then Ok its else Raise AttributeError
  | _ => Raise TypeError
  end.

Definition serialize (d : doc) : result doc :=
  let d :=
    match d !! "_id" with
    | Some v => <["id" := VStr (py_str v)]> (delete "_id" d)
    | None => d
    end in
  if truthy (dict_get d "items" VNone)
  then its ← serialize_items (dict_get d "items" VNone);
       Ok (<["items" := its]> d)
  else Ok d.

(** ** Customers *)

Definition create_customer (new_id : ObjectId) (payload : Customer) : M string :=
  create_document new_id "customer" (Customer_dump payload).

Definition list_customers (q : option string) : M (list doc) :=
  let filter_q :=
    match q with
    | Some s =>
        if truthy (VStr s)
        then AnyOf [[("name"%string, Regex s "i")]; [("company"%string, Regex s "i")]]
        else Fields []
    | None => Fields []
    end in
  docs ← get_documents "customer" filter_q;
  lift (mapM serialize docs).

(** ** Installers *)

Definition create_installer (new_id : ObjectId) (payload : Installer) : M string :=
  create_document new_id "installer" (Installer_dump payload).

Definition list_installers (active : option bool) : M (list doc) :=
  let filter_q :=
    match active with
    | Some b => Fields [("active"%string, EqBool b)]
    | None => Fields []
    end in
  docs ← get_documents "installer" filter_q;
  lift (mapM serialize docs).

(** ** Materials *)

Definition create_material (new_id : ObjectId) (payload : Material) : M string :=
  create_document new_id "material" (Material_dump payload).

Definition list_materials (search : option string) : M (list doc) :=
  let filter_q :=
    match search with
    | Some s =>
        if truthy (VStr s)
        then AnyOf [[("name"%string, Regex s "i")]; [("sku"%string, Regex s "i")]]
        else Fields []
    | None => Fields []
    end in
  docs ← get_documents "material" filter_q;
  lift (mapM serialize docs).

(** ** Orders *)

(** The loop of [create_order] from one item on: the items with their
    prices set, and the running total. *)
Fixpoint price_items (its : list OrderItem) (total : float) : M (list OrderItem * float) :=
  match its with
  | [] => mret ([], total)
  | item :: rest =>
      item ←
        match unit_price item with
        | None =>
            o ← lift (oid (VStr (material_id item)));
            mat ← find_one "material" (Fields [("_id"%string, EqOid o)]);
            match mat with
            | Some m =>
                if truthy (VDict m)
                then p ← lift (py_float (dict_get m "price" (VInt 0)));
                     mret (set_unit_price item p)
                else raise (HTTPException 404 ("Material saknas: " +:+ material_id item))
            | None => raise (HTTPException 404 ("Material saknas: " +:+ material_id item))
            end
        | Some _ => mret item
        end;
      p ← lift (py_float (opt_value VFloat (unit_price item)));
      q ← lift (py_float (VFloat (quantity item)));
      let total := (total + p * q)%float in
      '(rest, total) ← price_items rest total;
      mret (item :: rest, total)
  end.

Definition create_order (new_id : ObjectId) (payload : Order) : M OrderCreated :=
  '(its, total) ← price_items (items payload) 0%float;
  let payload := set_total (set_items payload its) (Some (round2 total)) in
  inserted_id ← create_document new_id "order" (Order_dump payload);
  mret {| created_id := inserted_id; created_total := round2 total |}.

(** [POST /orders]: the body is made an [Order] before the handler runs. *)
Definition post_orders (new_id : ObjectId) (body : OrderFields) : M OrderCreated :=
  payload ← lift (Order_init body);
  create_order new_id payload.

(** [db[coll].find_one({"_id": doc.get(k) and oid(doc[k])}) if doc.get(k)
    else None], the lookup of a customer or an installer. *)
Definition find_referenced (coll : string) (d : doc) (k : string) : M (option doc) :=
  if truthy (dict_get d k VNone)
  then o ← lift (oid (dict_get d k VNone));
       find_one coll (Fields [("_id"%string, EqOid o)])
  else mret None.

(** [x.get("name") if x else None]. *)
Definition name_of (x : option doc) : value :=
  match x with
  | Some m => if truthy (VDict m) then dict_get m "name" VNone else VNone
  | None => VNone
  end.

Definition enrich (d : doc) : M doc :=
  cust ← find_referenced "customer" d "customer_id";
  inst ← find_referenced "installer" d "installer_id";
  doc_serial ← lift (serialize d);
  mret (<["installer_name" := name_of inst]> (<["customer_name" := name_of cust]> doc_serial)).

Definition list_orders (status customer_id : option string) : M (list doc) :=
  let filter_q :=
    match status with
    | Some s => if truthy (VStr s) then [("status"%string, EqStr s)] else []
    | None => []
    end ++
    match customer_id with
    | Some c => if truthy (VStr c) then [("customer_id"%string, EqStr c)] else []
    | None => []
    end in
  docs ← get_documents "order" (Fields filter_q);
  mapM enrich docs.

End Main.

(** ** The diagnostic endpoint *)

(** What [test_database] sees of the module variable [db] when it is not
    [None]: its [name] attribute, if it has one, and what
    [list_collection_names()] returns, or, when it raises, [str(e)[:50]],
    the first 50 characters of the text of the exception.  Reading
    [db.name] is taken not to raise. *)
Record Connection := {
  conn_name : option string;
  conn_collections : string + list string
}.

(** [os.getenv(k)] as a condition. *)
Definition env_set (getenv : string -> option string) (k : string) : bool :=
  truthy (opt_value VStr (getenv k)).

Definition test_database (db : option Connection) (getenv : string -> option string) : doc :=
  let response : doc :=
    <["collections" := VList []]>
    (<["connection_status" := VStr "Not Connected"]>
    (<["database_name" := VNone]>
    (<["database_url" := VNone]>
    (<["database" := VStr "❌ Not Available"]>
    (<["backend" := VStr "✅ Running"]> ∅))))) in
  let response :=
    match db with
    | Some c =>
        let response := <["database" := VStr "✅ Available"]> response in
        let response := <["database_url" := VStr "✅ Configured"]> response in
        let response :=
          <["database_name" := VStr (default "✅ Connected"%string (conn_name c))]> response in
        let response := <["connection_status" := VStr "Connected"]> response in
        match conn_collections c with
        | inr collections =>
            let response :=
              <["collections" := VList (VStr <$> take 10 collections)]> response in
            <["database" := VStr "✅ Connected & Working"]> response
        | inl e =>
            <["database" := VStr ("⚠️  Connected but Error: " +:+ e)]> response
        end
    | None => <["database" := VStr "⚠️  Available but not initialized"]> response
    end in
  let response :=
    <["database_url" :=
        VStr (if env_set getenv "DATABASE_URL" then "✅ Set" else "❌ Not Set")]> response in
  <["database_name" :=
      VStr (if env_set getenv "DATABASE_NAME" then "✅ Set" else "❌ Not Set")]> response.

(* ===================================================================== *)
(** * Vocabulary of the properties *)
(* ===================================================================== *)

(** ** Order creation *)

(** The amount of one order line, [unit_price * quantity] (an item without
    a price counts for nothing), and the sum of the lines of an order taken
    in input order from [0.0], as the loop of [create_order] adds them. *)
Definition line_amount (it : OrderItem) : float :=
  (default 0 (unit_price it) * quantity it)%float.

Definition order_sum (its : list OrderItem) : float :=
  fold_left (fun acc it => (acc + line_amount it)%float) its 0%float.

(** The filter [{"_id": o}] as a test on documents. *)
Definition has_id (o : ObjectId) (d : doc) : bool :=
  field_holds (fun v => match v with VOid o' => ObjectId_eqb o o' | _ => false end) d "_id"
  && true.

(** The order collection after [create_document] stores [payload]. *)
Definition with_order (db : database) (new_id : ObjectId) (payload : Order) : database :=
  <["order" := collection db "order" ++ [<["_id" := VOid new_id]> (Order_dump payload)]]> db.

(** The order stored last, and what it holds. *)
Definition last_order (db : database) : option doc :=
  last (collection db "order").

(** No material of the store answers to the reference [mid]: it is no
    identifier, or no material has it. *)
Definition no_such_material (db : database) (mid : string) : Prop :=
  forall o, ObjectId_of_str mid = Some o ->
            List.find (has_id o) (collection db "material") = None.

(** Two items that differ at most in the reference of an item that carries
    its own price. *)
Definition same_but_priced_ref (a b : OrderItem) : Prop :=
  quantity a = quantity b /\ unit_price a = unit_price b
  /\ (unit_price a = None -> material_id a = material_id b).

Definition same_line (a b : OrderItem) : Prop :=
  quantity a = quantity b /\ unit_price a = unit_price b.

(** ** Listings *)

(** [s] contains [q], ASCII letters compared without their case: the
    characters of [s], its ASCII capitals in lower case, are some text,
    then those of [q], then some text. *)
Definition contains_ci (q s : string) : Prop :=
  exists pre post : list ascii,
    Regex.lower <$> list_ascii_of_string s
    = pre ++ (Regex.lower <$> list_ascii_of_string q) ++ post.

(** The field [k] of [d] contains [q]: as a string, or as one of the
    strings of an array. *)
Definition field_contains_ci (q : string) (d : doc) (k : string) : Prop :=
  match d !! k with
  | Some (VStr s) => contains_ci q s
  | Some (VList l) => exists s, In (VStr s) l /\ contains_ci q s
  | _ => False
  end.

(** [q] is made of ASCII characters, none of them one that the regular
    expressions of the store give a meaning to. *)
Definition plain (q : string) : bool :=
  forallb Regex.is_literal (list_ascii_of_string q).

(** The strings of the field [k] of [d], if any, are ASCII text. *)
Definition ascii_field (d : doc) (k : string) : Prop :=
  match d !! k with
  | Some (VStr s) => Regex.ascii_text s = true
  | Some (VList l) => forall s, In (VStr s) l -> Regex.ascii_text s = true
  | _ => True
  end.

(** The pattern test [matches] holds of the field [k] of [d]: of the
    string it is, or of one of the strings of the array it is. *)
Definition field_matches (matches : string -> bool) (d : doc) (k : string) : Prop :=
  match d !! k with
  | Some (VStr s) => matches s = true
  | Some (VList l) => exists s, In (VStr s) l /\ matches s = true
  | _ => False
  end.

(** The test of [{"status": s}]-like conditions: an empty or absent
    filter value puts no condition. *)
Definition string_field_is (x : option string) (d : doc) (k : string) : bool :=
  match x with
  | Some s =>
      if String.eqb s "" then true
      else field_holds (fun v => match v with VStr s' => String.eqb s s' | _ => false end) d k
  | None => true
  end.

(** The orders that [GET /orders] lists: both conditions hold. *)
Definition order_selected (status cust : option string) (d : doc) : bool :=
  string_field_is status d "status" && string_field_is cust d "customer_id".

Definition listed_orders (status cust : option string) (db : database) : list doc :=
  List.filter (order_selected status cust) (collection db "order").

Section Outcomes.
Context `{Runtime}.

(** The test of a plain pattern: the search of the fragment on ASCII
    subjects, the engine's on the others. *)
Definition plain_matcher (q : string) : string -> bool :=
  fun subject =>
    if Regex.ascii_text subject
    then Regex.search true (Regex.Lit <$> list_ascii_of_string q)
           (list_ascii_of_string subject)
    else pcre_search q "i" subject.

(** What the body of the loop of [create_order] makes of one item, as a
    function of the store it reads. *)
Definition resolve_item (db : database) (item : OrderItem) : result OrderItem :=
  match unit_price item with
  | Some _ => Ok item
  | None =>
      o ← oid (VStr (material_id item));
      match List.find (has_id o) (collection db "material") with
      | Some m =>
          if truthy (VDict m)
          then p ← py_float (dict_get m "price" (VInt 0));
               Ok (set_unit_price item p)
          else Raise (HTTPException 404 ("Material saknas: " +:+ material_id item))
      | None => Raise (HTTPException 404 ("Material saknas: " +:+ material_id item))
      end
  end.

(** A reference that [oid] accepts, or that is absent or empty. *)
Definition well_formed_ref (v : value) : Prop :=
  truthy v = false \/ exists o, oid v = Ok o.

(** A reference that is there and that [oid] refuses. *)
Definition malformed_ref (v : value) : Prop :=
  truthy v = true /\ forall o, oid v <> Ok o.

(** No document of the collection has the identifier that [v] spells; an
    absent or empty reference matches nothing. *)
Definition matches_none (db : database) (coll : string) (v : value) : Prop :=
  truthy v = true ->
  forall o, oid v = Ok o -> List.find (has_id o) (collection db coll) = None.

(** The lookup of [find_referenced], as a function of the store. *)
Definition referenced (db : database) (coll : string) (d : doc) (k : string)
  : result (option doc) :=
  if truthy (dict_get d k VNone)
  then o ← oid (dict_get d k VNone); Ok (List.find (has_id o) (collection db coll))
  else Ok None.

(** What [enrich] returns, as a function of the store. *)
Definition enriched (db : database) (d : doc) : result doc :=
  cust ← referenced db "customer" d "customer_id";
  inst ← referenced db "installer" d "installer_id";
  s ← serialize d;
  Ok (<["installer_name" := name_of inst]> (<["customer_name" := name_of cust]> s)).

(** An order as it is listed: the serialized document with the two names,
    each [None] when its reference matches no document. *)
Definition listed_as (db : database) (d out : doc) : Prop :=
  (exists s, serialize d = Ok s
             /\ forall k, k <> "customer_name"%string -> k <> "installer_name"%string ->
                          out !! k = s !! k)
  /\ (matches_none db "customer" (dict_get d "customer_id" VNone) ->
      out !! "customer_name" = Some VNone)
  /\ (matches_none db "installer" (dict_get d "installer_id" VNone) ->
      out !! "installer_name" = Some VNone).

End Outcomes.

(** ** A concrete shop, for the examples *)

Module Scenario.

(** A runtime for the examples.  Their values reach [py_repr] and
    [py_float_of_str] with nothing but identifiers, strings and floats,
    and their patterns and texts are ASCII and in the fragment that
    [Regex] decides, so the engine is never consulted. *)
#[global] Instance runtime : Runtime := {|
  ObjectId_generate := mkObjectId (repeat Byte.x00 12);
  py_repr := fun _ => "<object>"%string;
  py_float_of_str := fun _ => None;
  pcre_compiles := fun _ _ => false;
  pcre_search := fun _ _ _ => false
|}.

Definition id_screw : ObjectId := mkObjectId (repeat Byte.x00 11 ++ [Byte.x01]).
Definition id_alice : ObjectId := mkObjectId (repeat Byte.x00 11 ++ [Byte.x02]).
Definition id_order : ObjectId := mkObjectId (repeat Byte.x00 11 ++ [Byte.x03]).
Definition id_bob : ObjectId := mkObjectId (repeat Byte.x00 11 ++ [Byte.x04]).
Definition id_free : ObjectId := mkObjectId (repeat Byte.x00 11 ++ [Byte.x05]).

Definition screw : Material :=
  {| mat_sku := "M1"; mat_name := "Screw"; mat_unit := "st"; mat_price := 2.5;
     mat_stock := 0; mat_supplier := None |}.

Definition customer_named (name : string) (company : option string) : Customer :=
  {| cust_name := name; cust_email := None; cust_phone := None;
     cust_address := None; cust_company := company; cust_notes := None |}.

(** The store after [POST /materials] of the screw and [POST /customers]
    of Alice and of Bob. *)
Definition shop : database :=
  (create_customer id_bob (customer_named "Bob" (Some "Smithson AB"%string))
     (create_customer id_alice (customer_named "Alice" None)
        (create_material id_screw screw ∅).1).1).1.

(** The two customers as stored, and as [serialize] returns them. *)
Definition stored_customer (o : ObjectId) (c : Customer) : doc :=
  <["_id" := VOid o]> (Customer_dump c).

Definition listed_customer (o : ObjectId) (c : Customer) : doc :=
  <["id" := VStr (ObjectId_str o)]> (Customer_dump c).

Definition order_of (cust : string) (its : list OrderItem) : Order :=
  {| customer_id := cust; installer_id := None; items := its; status := "ny";
     scheduled_date := None; total := None; notes := None |}.

Definition fields_of (cust : string) (its : list OrderItem) : OrderFields :=
  {| f_customer_id := cust; f_installer_id := None; f_items := Some its;
     f_status := None; f_scheduled_date := None; f_total := None; f_notes := None |}.

(** Four screws at the catalogue price. *)
Definition screws_unpriced : OrderItem :=
  {| material_id := ObjectId_str id_screw; quantity := 4; unit_price := None |}.

(** A line with its own price, whose reference is no identifier at all. *)
Definition priced_line : OrderItem :=
  {| material_id := "not-an-id"; quantity := 3; unit_price := Some 1.5%float |}.

(** A line without a price whose reference is no identifier. *)
Definition malformed_line : OrderItem :=
  {| material_id := "abc"; quantity := 1; unit_price := None |}.

(** A line without a price whose reference is well formed and matches no
    material. *)
Definition dangling_line : OrderItem :=
  {| material_id := ObjectId_str id_free; quantity := 1; unit_price := None |}.

(** A reference of 24 characters that [ObjectId] accepts, white space
    and all: it spells eight bytes, [00 00 00 00 00 00 00 2a]. *)
Definition spaced_ref : string := "00 00 00 00 00 00 00 2a ".

(** A line without a price with that reference. *)
Definition spaced_line : OrderItem :=
  {| material_id := spaced_ref; quantity := 1; unit_price := None |}.

(** A catalogue whose only material has [None] for a price. *)
Definition unpriced_screw : doc :=
  <["_id" := VOid id_screw]> (<["price" := VNone]> (<["name" := VStr "Screw"]> ∅)).

Definition unpriced_catalogue : database :=
  <["material" := [unpriced_screw]]> ∅.

(** The shop after [POST /orders] of an order without items for the
    customer reference [cust], and that order as stored. *)
Definition shop_with_order (cust : string) : database :=
  (create_order id_order (order_of cust []) shop).1.

Definition stored_empty_order (cust : string) : doc :=
  <["_id" := VOid id_order]> (Order_dump (set_total (order_of cust []) (Some 0%float))).

End Scenario.

(** ** Further vocabulary *)

(** What the loop of [serialize] makes of an item: a dictionary, with its
    [material_id] as a string when it was an [ObjectId]. *)
Definition item_serialized (v v' : value) : Prop :=
  exists m, v = VDict m
            /\ v' = VDict match m !! "material_id" with
                          | Some (VOid o) => <["material_id" := VStr (ObjectId_str o)]> m
                          | _ => m
                          end.

Definition is_dict (v : value) : bool :=
  match v with
  | VDict _ => true
  | _ => false
  end.

(** Values that are true and that [for] cannot iterate. *)
Definition not_iterable (v : value) : bool :=
  match v with
  | VBool _ | VInt _ | VFloat _ | VOid _ | VDate _ _ _ => truthy v
  | _ => false
  end.

(** The field [k] of [d] is [v], or an array that holds [v]: the equality
    conditions of the store. *)
Definition field_is (v : value) (d : doc) (k : string) : Prop :=
  d !! k = Some v \/ exists l, d !! k = Some (VList l) /\ In v l.

(** An item as stored for the item [it] of the payload: same reference and
    quantity, and a price, the one given if one was given. *)
Definition stored_for (it it' : OrderItem) : Prop :=
  material_id it' = material_id it
  /\ quantity it' = quantity it
  /\ exists p, unit_price it' = Some p
               /\ forall q, unit_price it = Some q -> p = q.

(** A record of the three plain collections as stored with the identifier
    [o], and as listed. *)
Definition stored_as (o : ObjectId) (record : doc) : doc :=
  <["_id" := VOid o]> record.

Definition listed_record (o : ObjectId) (record : doc) : doc :=
  <["id" := VStr (ObjectId_str o)]> record.

(** A dump of one of the models without items: it has neither ["_id"] nor
    ["id"] nor ["items"]. *)
Definition plain_record (record : doc) : Prop :=
  record !! "_id" = None /\ record !! "id" = None /\ record !! "items" = None.

(** The test that [list_customers] hands to the store, given the test
    that the pattern makes of a string. *)
Definition customer_kept (matches : string -> bool) (d : doc) : bool :=
  (field_holds (fun v => match v with VStr s => matches s | _ => false end) d "name"
   && true)
  || ((field_holds (fun v => match v with VStr s => matches s | _ => false end) d "company"
       && true)
      || false).

(* ===================================================================== *)
(** * Properties *)
(* ===================================================================== *)

(** ** The monads *)

Lemma result_bind_Ok {A B} (f : A -> result B) (a : A) : Ok a ≫= f = f a.
Proof. reflexivity. Qed.

Lemma result_bind_Raise {A B} (f : A -> result B) (e : exn) :
  Raise e ≫= f = Raise e.
Proof. reflexivity. Qed.

Lemma result_fmap_Ok_inv {A B} (f : A -> B) (r : result A) (b : B) :
  f <$> r = Ok b -> exists a, r = Ok a /\ b = f a.
Proof. destruct r as [a|e]; [|discriminate]. intros [= <-]. eauto. Qed.

Lemma M_bind_run {A B} (m : M A) (k : A -> M B) (db : database) :
  (m ≫= k) db =
  match m db with
  | (db', Ok a) => k a db'
  | (db', Raise e) => (db', Raise e)
  end.
Proof. reflexivity. Qed.

Lemma lift_run {A} (r : result A) (db : database) : lift r db = (db, r).
Proof. reflexivity. Qed.

Lemma mapM_result_cons {A B} (f : A -> result B) (x : A) (l : list A) :
  mapM f (x :: l) = (y ← f x; k ← mapM f l; Ok (y :: k)).
Proof. reflexivity. Qed.

(** A list maps to itself when each element does. *)
Lemma mapM_result_fixed {A} (f : A -> result A) (l : list A) :
  Forall (fun x => f x = Ok x) l -> mapM f l = Ok l.
Proof.
  induction 1 as [|x l Hx _ IH]; [reflexivity|].
  rewrite mapM_result_cons, Hx, result_bind_Ok, IH. reflexivity.
Qed.

Lemma mapM_result_Ok_Forall2 {A B} (f : A -> result B) (l : list A) (k : list B) :
  mapM f l = Ok k -> Forall2 (fun x y => f x = Ok y) l k.
Proof.
  revert k. induction l as [|x l IH]; intros k.
  - intros [= <-]. constructor.
  - rewrite mapM_result_cons. destruct (f x) as [y|e] eqn:Hx; [|discriminate].
    rewrite result_bind_Ok. destruct (mapM f l) as [k'|e]; [|discriminate].
    intros [= <-]. constructor; auto.
Qed.

(** ** Serialization *)

Section SerializeFacts.
Context `{Runtime}.

Lemma serialize_item_fixed (v v' : value) :
  serialize_item v = Ok v' -> serialize_item v' = Ok v'.
Proof.
  destruct v as [| | | | | | | |m]; try discriminate. simpl.
  destruct (m !! "material_id") as [[| | | | |o| | |]|] eqn:Hm;
    intros [= <-]; simpl; rewrite ?Hm; try reflexivity.
  rewrite lookup_insert_eq. reflexivity.
Qed.

Lemma serialize_items_fixed (v v' : value) :
  serialize_items v = Ok v' -> serialize_items v' = Ok v' /\ truthy v' = truthy v.
Proof.
  destruct v as [| | | |s| | |l|d]; try discriminate; simpl.
  - destruct (String.eqb s "") eqn:Hs; [|discriminate].
    intros [= <-]. simpl. rewrite Hs. auto.
  - intros Hl. apply result_fmap_Ok_inv in Hl as (k & Hk & ->).
    apply mapM_result_Ok_Forall2 in Hk. split.
    + simpl. rewrite (mapM_result_fixed serialize_item k); [reflexivity|].
      induction Hk; constructor; eauto using serialize_item_fixed.
    + simpl. destruct Hk; reflexivity.
  - destruct (Nat.eqb (size d) 0) eqn:Hd; [|discriminate].
    intros [= <-]. simpl. rewrite Hd. auto.
Qed.

(** What [serialize] leaves behind: no ["_id"], and items that the loop
    would not change. *)
Lemma serialize_Ok_shape (d d' : doc) :
  serialize d = Ok d' ->
  d' !! "_id" = None /\
  (truthy (dict_get d' "items" VNone) = true ->
   serialize_items (dict_get d' "items" VNone) = Ok (dict_get d' "items" VNone)).
Proof.
  unfold serialize.
  set (d1 := match d !! "_id" with Some v => _ | None => d end).
  assert (Hid : d1 !! "_id" = None).
  { subst d1. destruct (d !! "_id") eqn:E; [|exact E].
    rewrite lookup_insert_ne by discriminate. apply lookup_delete_eq. }
  destruct (truthy (dict_get d1 "items" VNone)) eqn:Ht.
  - destruct (serialize_items (dict_get d1 "items" VNone)) as [its|e] eqn:Hs;
      [|discriminate].
    rewrite result_bind_Ok. intros [= <-]. split.
    + rewrite lookup_insert_ne by discriminate. exact Hid.
    + unfold dict_get. rewrite lookup_insert_eq. simpl. intros _.
      apply serialize_items_fixed in Hs. apply Hs.
  - intros [= <-]. split; [exact Hid|]. rewrite Ht. discriminate.
Qed.

Lemma serialize_fixed (d : doc) :
  d !! "_id" = None ->
  (truthy (dict_get d "items" VNone) = true ->
   serialize_items (dict_get d "items" VNone) = Ok (dict_get d "items" VNone)) ->
  serialize d = Ok d.
Proof.
  intros Hid Hits. unfold serialize. rewrite Hid.
  destruct (truthy (dict_get d "items" VNone)) eqn:Ht; [|reflexivity].
  rewrite Hits by reflexivity. rewrite result_bind_Ok. f_equal.
  apply insert_id. unfold dict_get in *.
  destruct (d !! "items") as [v|]; [reflexivity|discriminate].
Qed.

(** The identifier of the store comes out under ["id"], as a string. *)
Lemma serialize_renames_id (d d' : doc) (v : value) :
  d !! "_id" = Some v ->
  serialize d = Ok d' ->
  d' !! "id" = Some (VStr (py_str v)) /\ d' !! "_id" = None.
Proof.
  intros Hv Hd. split; [|apply (serialize_Ok_shape _ _ Hd)].
  revert Hd. unfold serialize. rewrite Hv.
  destruct (truthy _).
  - destruct (serialize_items _) as [its|e]; [|discriminate].
    rewrite result_bind_Ok. intros [= <-].
    rewrite lookup_insert_ne by discriminate. apply lookup_insert_eq.
  - intros [= <-]. apply lookup_insert_eq.
Qed.

(** Only a reference of the native type is converted; a string stays. *)
Lemma serialize_item_reference (m : doc) :
  serialize_item (VDict m) =
  Ok (VDict match m !! "material_id" with
            | Some (VOid o) => <["material_id" := VStr (ObjectId_str o)]> m
            | _ => m
            end).
Proof.
  simpl. destruct (m !! "material_id") as [[| | | | |o| | |]|]; reflexivity.
Qed.

(** C4. Serializing a serialized document gives it back unchanged: the
    second pass finds no ["_id"] to rename and no item whose [material_id]
    is an [ObjectId]; when the first pass raises, so does the composition,
    with the same exception. *)
Theorem serialize_idempotent (d : doc) :
  serialize d ≫= serialize = serialize d.
Proof.
  destruct (serialize d) as [d'|e] eqn:Hd; [|reflexivity].
  rewrite result_bind_Ok. apply serialize_Ok_shape in Hd as [Hid Hits].
  apply serialize_fixed; assumption.
Qed.

End SerializeFacts.

(** ** Order creation *)

Section OrderFacts.
Context `{Runtime}.

Lemma find_one_by_id (coll : string) (o : ObjectId) (db : database) :
  find_one coll (Fields [("_id"%string, EqOid o)]) db =
  (db, Ok (List.find (has_id o) (collection db coll))).
Proof. reflexivity. Qed.

Lemma resolve_item_priced (db : database) (item item' : OrderItem) :
  resolve_item db item = Ok item' -> is_Some (unit_price item').
Proof.
  unfold resolve_item. destruct (unit_price item) as [p|] eqn:Hp.
  - intros [= <-]. rewrite Hp. eauto.
  - destruct (oid _) as [o|e]; [|discriminate]. rewrite result_bind_Ok.
    destruct (List.find _ _) as [m|]; [|discriminate].
    destruct (truthy _); [|discriminate].
    destruct (py_float _) as [p|e]; [|discriminate].
    intros [= <-]. simpl. eauto.
Qed.

(** The loop reads the store and never writes it; it stops at the first
    item that cannot be priced. *)
Lemma price_items_run (its : list OrderItem) (acc : float) (db : database) :
  price_items its acc db =
  (db, its' ← mapM (resolve_item db) its;
       Ok (its', fold_left (fun a it => (a + line_amount it)%float) its' acc)).
Proof.
  revert acc. induction its as [|item rest IH]; intros acc; [reflexivity|].
  rewrite mapM_result_cons. cbn [price_items].
  rewrite M_bind_run.
  assert (Hstep :
    (match unit_price item with
     | Some _ => mret item
     | None =>
         o ← lift (oid (VStr (material_id item)));
         mat ← find_one "material" (Fields [("_id"%string, EqOid o)]);
         match mat with
         | Some m =>
             if truthy (VDict m)
             then p ← lift (py_float (dict_get m "price" (VInt 0)));
                  mret (set_unit_price item p)
             else raise (HTTPException 404 ("Material saknas: " +:+ material_id item))
         | None => raise (HTTPException 404 ("Material saknas: " +:+ material_id item))
         end
     end) db = (db, resolve_item db item)).
  { unfold resolve_item. destruct (unit_price item); [reflexivity|].
    rewrite M_bind_run, lift_run. destruct (oid _) as [o|e]; [|reflexivity].
    rewrite result_bind_Ok, M_bind_run, find_one_by_id.
    destruct (List.find _ _) as [m|]; [|reflexivity].
    destruct (truthy _); [|reflexivity].
    rewrite M_bind_run, lift_run. destruct (py_float _); reflexivity. }
  rewrite Hstep. destruct (resolve_item db item) as [item'|e] eqn:Hr; [|reflexivity].
  rewrite result_bind_Ok.
  destruct (resolve_item_priced _ _ _ Hr) as [p Hp].
  assert (Hline : line_amount item' = (p * quantity item')%float).
  { unfold line_amount. rewrite Hp. reflexivity. }
  rewrite M_bind_run, lift_run. rewrite Hp. cbn [opt_value py_float].
  rewrite M_bind_run, lift_run. rewrite M_bind_run, IH.
  destruct (mapM (resolve_item db) rest) as [rest'|e]; [|reflexivity].
  rewrite !result_bind_Ok. cbn [fold_left]. rewrite Hline. reflexivity.
Qed.

(** [create_order] in one step: every item is priced, then the order is
    stored with the rounded sum; or nothing is stored. *)
Lemma create_order_run (new_id : ObjectId) (payload : Order) (db : database) :
  create_order new_id payload db =
  match mapM (resolve_item db) (items payload) with
  | Ok its =>
      let t := round2 (order_sum its) in
      (with_order db new_id (set_total (set_items payload its) (Some t)),
       Ok {| created_id := ObjectId_str new_id; created_total := t |})
  | Raise e => (db, Raise e)
  end.
Proof.
  unfold create_order. rewrite M_bind_run, price_items_run.
  destruct (mapM (resolve_item db) (items payload)) as [its|e]; reflexivity.
Qed.

End OrderFacts.

(** ** Lists mapped with exceptions *)

Section MapM.
Context {A B : Type} (f : A -> result B).

Lemma mapM_result_total (l : list A) :
  Forall (fun x => exists y, f x = Ok y) l -> exists k, mapM f l = Ok k.
Proof.
  induction 1 as [|x l [y Hy] _ [k IH]]; [exists []; reflexivity|].
  exists (y :: k). rewrite mapM_result_cons, Hy, result_bind_Ok, IH. reflexivity.
Qed.

(** The exception is that of the first element that raises. *)
Lemma mapM_result_first_Raise (pre post : list A) (x : A) (e : exn) :
  Forall (fun y => exists y', f y = Ok y') pre ->
  f x = Raise e ->
  mapM f (pre ++ x :: post) = Raise e.
Proof.
  intros Hpre Hx. induction Hpre as [|y pre [y' Hy] _ IH]; simpl app.
  - rewrite mapM_result_cons, Hx. reflexivity.
  - rewrite mapM_result_cons, Hy, result_bind_Ok, IH. reflexivity.
Qed.

Lemma mapM_result_In_Raise (l : list A) (x : A) (e0 : exn) :
  In x l -> f x = Raise e0 -> exists e, mapM f l = Raise e.
Proof.
  induction l as [|y l IH]; [intros []|]. intros Hin Hx.
  rewrite mapM_result_cons. destruct (f y) as [y'|e] eqn:Hy; [|eauto].
  rewrite result_bind_Ok. destruct Hin as [->|Hin]; [congruence|].
  destruct (IH Hin Hx) as [e ->]. eauto.
Qed.

Lemma mapM_result_Raise_inv (l : list A) (e : exn) :
  mapM f l = Raise e -> exists x, In x l /\ f x = Raise e.
Proof.
  induction l as [|y l IH]; [discriminate|].
  rewrite mapM_result_cons. destruct (f y) as [y'|e'] eqn:Hy.
  - rewrite result_bind_Ok. destruct (mapM f l) as [k|e'']; [discriminate|].
    intros [= ->]. destruct (IH eq_refl) as (x & Hin & Hx).
    exists x. split; [right|]; assumption.
  - intros [= ->]. exists y. split; [left; reflexivity|assumption].
Qed.

End MapM.

Lemma collection_with_order (db : database) (new_id : ObjectId) (payload : Order) :
  collection (with_order db new_id payload) "order" =
  collection db "order" ++ [<["_id" := VOid new_id]> (Order_dump payload)].
Proof. unfold with_order, collection at 1. rewrite lookup_insert_eq. reflexivity. Qed.

Lemma collection_with_order_ne (db : database) (new_id : ObjectId) (payload : Order)
    (name : string) :
  name <> "order"%string ->
  collection (with_order db new_id payload) name = collection db name.
Proof.
  intros Hne. unfold with_order, collection at 1.
  rewrite lookup_insert_ne by congruence. reflexivity.
Qed.

Lemma last_order_with_order (db : database) (new_id : ObjectId) (payload : Order) :
  last_order (with_order db new_id payload) =
  Some (<["_id" := VOid new_id]> (Order_dump payload)).
Proof. unfold last_order. rewrite collection_with_order. apply last_snoc. Qed.

Lemma stored_order_total (new_id : ObjectId) (payload : Order) :
  (<["_id" := VOid new_id]> (Order_dump payload) : doc) !! "total" =
  Some (opt_value VFloat (total payload)).
Proof. reflexivity. Qed.

Lemma stored_order_status (new_id : ObjectId) (payload : Order) :
  (<["_id" := VOid new_id]> (Order_dump payload) : doc) !! "status" =
  Some (VStr (status payload)).
Proof. reflexivity. Qed.

Lemma stored_order_items (new_id : ObjectId) (payload : Order) :
  (<["_id" := VOid new_id]> (Order_dump payload) : doc) !! "items" =
  Some (VList (OrderItem_dump <$> items payload)).
Proof. reflexivity. Qed.

Section CreateOrder.
Context `{Runtime}.

Lemma resolve_items_priced (db : database) (its : list OrderItem) :
  Forall (fun it => is_Some (unit_price it)) its ->
  mapM (resolve_item db) its = Ok its.
Proof.
  intros Hall. apply mapM_result_fixed.
  eapply Forall_impl; [exact Hall|].
  intros it [p Hp]. unfold resolve_item. rewrite Hp. reflexivity.
Qed.

Lemma set_items_same (payload : Order) : set_items payload (items payload) = payload.
Proof. destruct payload; reflexivity. Qed.

(** C1. When every item carries its own [unit_price], [create_order]
    succeeds on every store: it stores the order and returns
    [round(total, 2)] for the sum of [unit_price * quantity] over the items;
    the answer does not depend on the store, and with no item the total is
    [0.0]. *)
Theorem create_order_explicit_prices (new_id : ObjectId) (payload : Order) (db : database) :
  Forall (fun it => is_Some (unit_price it)) (items payload) ->
  create_order new_id payload db =
    (with_order db new_id (set_total payload (Some (round2 (order_sum (items payload))))),
     Ok {| created_id := ObjectId_str new_id;
           created_total := round2 (order_sum (items payload)) |})
  /\ (forall db', (create_order new_id payload db').2 = (create_order new_id payload db).2)
  /\ (items payload = [] -> round2 (order_sum (items payload)) = 0%float).
Proof.
  intros Hall.
  assert (Hrun : forall d, create_order new_id payload d =
    (with_order d new_id (set_total payload (Some (round2 (order_sum (items payload))))),
     Ok {| created_id := ObjectId_str new_id;
           created_total := round2 (order_sum (items payload)) |})).
  { intros d. rewrite create_order_run, (resolve_items_priced _ _ Hall).
    cbv zeta. rewrite set_items_same. reflexivity. }
  split; [apply Hrun|]. split.
  - intros db'. rewrite !Hrun. reflexivity.
  - intros ->. reflexivity.
Qed.

End CreateOrder.

Lemma create_order_explicit_prices_witness :
  (create_order Scenario.id_order
     (Scenario.order_of "anyone" [Scenario.priced_line; Scenario.priced_line])
     Scenario.shop).2
  = Ok {| created_id := "000000000000000000000003"; created_total := 9 |}.
Proof.
  rewrite (proj1 (create_order_explicit_prices Scenario.id_order
    (Scenario.order_of "anyone" [Scenario.priced_line; Scenario.priced_line])
    Scenario.shop
    ltac:(repeat constructor; eexists; reflexivity))).
  vm_compute. reflexivity.
Defined.

Section CreateOrderOutcome.
Context `{Runtime}.

Lemma create_order_Ok_inv (new_id : ObjectId) (payload : Order) (db db' : database)
    (r : OrderCreated) :
  create_order new_id payload db = (db', Ok r) ->
  exists its,
    mapM (resolve_item db) (items payload) = Ok its
    /\ db' = with_order db new_id
               (set_total (set_items payload its) (Some (round2 (order_sum its))))
    /\ r = {| created_id := ObjectId_str new_id;
              created_total := round2 (order_sum its) |}.
Proof.
  rewrite create_order_run.
  destruct (mapM (resolve_item db) (items payload)) as [its|e]; [|discriminate].
  cbv zeta. intros [= <- <-]. eauto.
Qed.

Lemma create_order_Raise_inv (new_id : ObjectId) (payload : Order) (db db' : database)
    (e : exn) :
  create_order new_id payload db = (db', Raise e) ->
  db' = db /\ mapM (resolve_item db) (items payload) = Raise e.
Proof.
  rewrite create_order_run.
  destruct (mapM (resolve_item db) (items payload)) as [its|e']; [discriminate|].
  intros [= <- <-]. auto.
Qed.

(** C9. A [total] sent by the client plays no part: the run is the same
    whatever the payload's [total] was, and the total returned and the one
    stored are both [round(sum, 2)] over the items as priced by the loop. *)
Theorem create_order_ignores_client_total (new_id : ObjectId) (payload : Order)
    (t : option float) (db : database) :
  create_order new_id (set_total payload t) db = create_order new_id payload db
  /\ (forall db' r, create_order new_id payload db = (db', Ok r) ->
      exists its stored,
        Forall2 (fun it it' => resolve_item db it = Ok it') (items payload) its
        /\ created_total r = round2 (order_sum its)
        /\ last_order db' = Some stored
        /\ stored !! "total" = Some (VFloat (round2 (order_sum its)))
        /\ stored !! "items" = Some (VList (OrderItem_dump <$> its)))
  /\ (forall body, Order_init body = Ok (set_total payload t) ->
      post_orders new_id body db = create_order new_id payload db).
Proof.
  assert (Hsame : create_order new_id (set_total payload t) db
                  = create_order new_id payload db).
  { rewrite !create_order_run. reflexivity. }
  split; [exact Hsame|]. split.
  - intros db' r Hrun. apply create_order_Ok_inv in Hrun as (its & Hits & -> & ->).
    eexists its, _. split; [apply mapM_result_Ok_Forall2, Hits|].
    split; [reflexivity|]. split; [apply last_order_with_order|].
    split; reflexivity.
  - intros body Hbody. unfold post_orders.
    rewrite M_bind_run, lift_run, Hbody. exact Hsame.
Qed.

(** A document found by its ["_id"] has that key, so it is not empty. *)
Lemma found_by_id_truthy (o : ObjectId) (l : list doc) (m : doc) :
  List.find (has_id o) l = Some m -> truthy (VDict m) = true.
Proof.
  intros Hf. apply find_some in Hf as [_ Hid].
  unfold has_id, field_holds in Hid. simpl.
  destruct (m !! "_id") as [v|] eqn:Hv; [|discriminate].
  destruct (Nat.eqb (size m) 0) eqn:Hsz; [|reflexivity].
  apply Nat.eqb_eq, map_size_empty_iff in Hsz. subst m.
  rewrite lookup_empty in Hv. discriminate.
Qed.

Lemma oid_of_str (s : string) (o : ObjectId) :
  ObjectId_of_str s = Some o -> oid (VStr s) = Ok o.
Proof. intros Hs. unfold oid, ObjectId_new. rewrite Hs. reflexivity. Qed.

Lemma oid_of_str_None (s : string) :
  ObjectId_of_str s = None -> oid (VStr s) = Raise (HTTPException 400 "Ogiltigt ID").
Proof. intros Hs. unfold oid, ObjectId_new. rewrite Hs. reflexivity. Qed.

(** C2. An item without [unit_price] whose material exists is stored with
    the price of that material: [float(mat.get("price", 0))], which is the
    [price] field itself when it is a float and [0.0] when the field is
    missing.  The order is stored whenever every item can be priced. *)
Theorem resolved_price_is_material_price (new_id : ObjectId) (payload : Order)
    (db : database) (i : nat) (item : OrderItem) (o : ObjectId) (m : doc) :
  items payload !! i = Some item ->
  unit_price item = None ->
  ObjectId_of_str (material_id item) = Some o ->
  List.find (has_id o) (collection db "material") = Some m ->
  (forall db' r, create_order new_id payload db = (db', Ok r) ->
     exists (p : float) (stored : doc) (its : list value) (it : doc),
       py_float (dict_get m "price" (VInt 0)) = Ok p
       /\ last_order db' = Some stored
       /\ stored !! "items" = Some (VList its)
       /\ its !! i = Some (VDict it)
       /\ it !! "material_id" = Some (VStr (material_id item))
       /\ it !! "unit_price" = Some (VFloat p)
       /\ (m !! "price" = None -> p = 0%float)
       /\ (forall f, m !! "price" = Some (VFloat f) -> p = f))
  /\ (Forall (fun it => exists it', resolve_item db it = Ok it') (items payload) ->
      exists db' r, create_order new_id payload db = (db', Ok r)).
Proof.
  intros Hi Hnone Hoid Hfind. split.
  - intros db' r Hrun. apply create_order_Ok_inv in Hrun as (its & Hits & -> & ->).
    apply mapM_result_Ok_Forall2 in Hits.
    destruct (Forall2_lookup_l _ _ _ _ _ Hits Hi) as (item' & Hi' & Hres).
    unfold resolve_item in Hres. rewrite Hnone, (oid_of_str _ _ Hoid) in Hres.
    rewrite result_bind_Ok, Hfind, (found_by_id_truthy _ _ _ Hfind) in Hres.
    destruct (py_float (dict_get m "price" (VInt 0))) as [p|e] eqn:Hp; [|discriminate].
    rewrite result_bind_Ok in Hres. injection Hres as <-.
    exists p. eexists _, _, _. split; [reflexivity|].
    split; [apply last_order_with_order|]. split; [reflexivity|].
    split; [simpl; rewrite list_lookup_fmap, Hi'; reflexivity|].
    split; [reflexivity|]. split; [reflexivity|]. split.
    + intros Hm. unfold dict_get in Hp. rewrite Hm in Hp. simpl in Hp.
      injection Hp as <-. reflexivity.
    + intros f Hm. unfold dict_get in Hp. rewrite Hm in Hp. simpl in Hp.
      injection Hp as <-. reflexivity.
  - intros Hall. destruct (mapM_result_total _ _ Hall) as [its Hits].
    rewrite create_order_run, Hits. eauto.
Qed.

End CreateOrderOutcome.

(** ** Running the handlers on given data *)

Section RunLemmas.
Context `{Runtime}.

Lemma create_order_Raise_of (new_id : ObjectId) (payload : Order) (db : database)
    (e : exn) :
  mapM (resolve_item db) (items payload) = Raise e ->
  create_order new_id payload db = (db, Raise e).
Proof. intros He. rewrite create_order_run, He. reflexivity. Qed.

Lemma create_order_Ok_of (new_id : ObjectId) (payload : Order) (db : database)
    (its : list OrderItem) :
  mapM (resolve_item db) (items payload) = Ok its ->
  create_order new_id payload db
  = (with_order db new_id
       (set_total (set_items payload its) (Some (round2 (order_sum its)))),
     Ok {| created_id := ObjectId_str new_id;
           created_total := round2 (order_sum its) |}).
Proof. intros Hits. rewrite create_order_run, Hits. reflexivity. Qed.

Lemma post_orders_Ok_of (new_id : ObjectId) (body : OrderFields) (db : database)
    (payload : Order) (its : list OrderItem) :
  Order_init body = Ok payload ->
  mapM (resolve_item db) (items payload) = Ok its ->
  post_orders new_id body db
  = (with_order db new_id
       (set_total (set_items payload its) (Some (round2 (order_sum its)))),
     Ok {| created_id := ObjectId_str new_id;
           created_total := round2 (order_sum its) |}).
Proof.
  intros Hbody Hits. unfold post_orders. rewrite M_bind_run, lift_run, Hbody.
  apply create_order_Ok_of, Hits.
Qed.

End RunLemmas.

(** The collections after [create_document]. *)
Lemma collection_create_document (o : ObjectId) (name name' : string) (d : doc)
    (db : database) :
  collection (create_document o name d db).1 name'
  = if String.eqb name' name
    then collection db name ++ [<["_id" := VOid o]> d]
    else collection db name'.
Proof.
  unfold create_document. rewrite M_bind_run. unfold insert_one, mret, M_ret.
  cbn [fst]. unfold collection at 1.
  destruct (String.eqb name' name) eqn:Hn.
  - apply String.eqb_eq in Hn as ->. rewrite lookup_insert_eq. reflexivity.
  - apply String.eqb_neq in Hn. rewrite lookup_insert_ne by congruence. reflexivity.
Qed.

Lemma bytes_eqb_refl (bs : list Byte.byte) : Hex.bytes_eqb bs bs = true.
Proof.
  induction bs as [|b bs IH]; [reflexivity|].
  cbn [Hex.bytes_eqb]. rewrite N.eqb_refl. exact IH.
Qed.

Lemma ObjectId_eqb_refl (o : ObjectId) : ObjectId_eqb o o = true.
Proof. apply bytes_eqb_refl. Qed.

Lemma has_id_inserted (o : ObjectId) (d : doc) :
  has_id o (<["_id" := VOid o]> d) = true.
Proof.
  unfold has_id, field_holds. rewrite lookup_insert_eq.
  rewrite ObjectId_eqb_refl. reflexivity.
Qed.

(** ** The shop of the examples *)

Lemma shop_materials :
  collection Scenario.shop "material"
  = [<["_id" := VOid Scenario.id_screw]> (Material_dump Scenario.screw)].
Proof.
  unfold Scenario.shop, create_customer, create_material.
  rewrite !collection_create_document. reflexivity.
Qed.

Lemma shop_orders : collection Scenario.shop "order" = [].
Proof.
  unfold Scenario.shop, create_customer, create_material.
  rewrite !collection_create_document. reflexivity.
Qed.

Lemma shop_finds_screw :
  List.find (has_id Scenario.id_screw) (collection Scenario.shop "material")
  = Some (<["_id" := VOid Scenario.id_screw]> (Material_dump Scenario.screw)).
Proof. rewrite shop_materials. cbn [List.find]. rewrite has_id_inserted. reflexivity. Qed.

Lemma shop_with_order_run (cust : string) :
  Scenario.shop_with_order cust
  = with_order Scenario.shop Scenario.id_order
      (set_total (Scenario.order_of cust []) (Some 0%float)).
Proof.
  unfold Scenario.shop_with_order.
  rewrite (create_order_Ok_of Scenario.id_order (Scenario.order_of cust [])
             Scenario.shop [] eq_refl).
  reflexivity.
Qed.

Lemma create_order_ignores_client_total_witness :
  create_order Scenario.id_order
    (set_total (Scenario.order_of (ObjectId_str Scenario.id_alice)
                  [Scenario.screws_unpriced]) (Some 999%float))
    Scenario.shop
  = create_order Scenario.id_order
      (Scenario.order_of (ObjectId_str Scenario.id_alice) [Scenario.screws_unpriced])
      Scenario.shop
  /\ (create_order Scenario.id_order
        (Scenario.order_of (ObjectId_str Scenario.id_alice) [Scenario.screws_unpriced])
        Scenario.shop).2
     = Ok {| created_id := "000000000000000000000003"; created_total := 10 |}.
Proof.
  split.
  - apply (create_order_ignores_client_total Scenario.id_order
             (Scenario.order_of (ObjectId_str Scenario.id_alice)
                [Scenario.screws_unpriced])
             (Some 999%float) Scenario.shop).
  - vm_compute. reflexivity.
Defined.

(** The example of the specification: four screws at 2.5 each. *)
Lemma resolved_price_is_material_price_witness :
  exists db' r stored its it,
    create_order Scenario.id_order
      (Scenario.order_of (ObjectId_str Scenario.id_alice) [Scenario.screws_unpriced])
      Scenario.shop = (db', Ok r)
    /\ created_total r = 10%float
    /\ last_order db' = Some stored
    /\ stored !! "items" = Some (VList its)
    /\ its !! 0%nat = Some (VDict it)
    /\ it !! "unit_price" = Some (VFloat 2.5).
Proof.
  destruct (resolved_price_is_material_price Scenario.id_order
              (Scenario.order_of (ObjectId_str Scenario.id_alice)
                 [Scenario.screws_unpriced])
              Scenario.shop 0 Scenario.screws_unpriced Scenario.id_screw
              (<["_id" := VOid Scenario.id_screw]> (Material_dump Scenario.screw))
              eq_refl eq_refl
              ltac:(vm_compute; reflexivity) shop_finds_screw)
    as [Hstored Hruns].
  destruct Hruns as (db' & r & Hrun).
  { repeat constructor. eexists. vm_compute. reflexivity. }
  destruct (Hstored _ _ Hrun)
    as (p & stored & its & it & _ & Hlast & Hits & Hi & _ & Hup & _ & Hprice).
  exists db', r, stored, its, it.
  split; [exact Hrun|]. split.
  { assert (Hr : (create_order Scenario.id_order
                    (Scenario.order_of (ObjectId_str Scenario.id_alice)
                       [Scenario.screws_unpriced]) Scenario.shop).2 = Ok r)
      by (rewrite Hrun; reflexivity).
    vm_compute in Hr. injection Hr as <-. reflexivity. }
  split; [exact Hlast|]. split; [exact Hits|]. split; [exact Hi|].
  rewrite Hup. rewrite (Hprice 2.5%float); reflexivity.
Defined.

(** ** Items that cannot be priced *)

Lemma order_sum_same_lines (k k' : list OrderItem) :
  Forall2 same_line k k' -> order_sum k = order_sum k'.
Proof.
  intros Hk. unfold order_sum. generalize 0%float.
  induction Hk as [|a b k k' [Hq Hp] _ IH]; intros acc; [reflexivity|].
  simpl. replace (line_amount b) with (line_amount a); [apply IH|].
  unfold line_amount. rewrite Hq, Hp. reflexivity.
Qed.

Section Unpriced.
Context `{Runtime}.

Lemma resolve_item_dangling (db : database) (item : OrderItem) :
  unit_price item = None ->
  no_such_material db (material_id item) ->
  resolve_item db item =
  Raise match ObjectId_of_str (material_id item) with
        | Some _ => HTTPException 404 ("Material saknas: " +:+ material_id item)
        | None => HTTPException 400 "Ogiltigt ID"
        end.
Proof.
  intros Hnone Hno. unfold resolve_item. rewrite Hnone.
  destruct (ObjectId_of_str (material_id item)) as [o|] eqn:Ho.
  - rewrite (oid_of_str _ _ Ho), result_bind_Ok, (Hno o Ho). reflexivity.
  - rewrite (oid_of_str_None _ Ho). reflexivity.
Qed.

(** C3, as the code has it.  An order with an item that has no price and
    no material is not created: [create_order] raises and the store is the
    one it started from, so listing the orders afterwards gives what it
    gave before.  The exception is that of the first item, in input order,
    that cannot be priced: for this item, 404 (material missing) when
    [ObjectId] accepts its reference (24 characters that [bytes.fromhex]
    reads, white space around the bytes included) and 400 (invalid
    identifier) when it does not. *)
Theorem unpriced_item_without_material_fails (new_id : ObjectId) (payload : Order)
    (db : database) (item : OrderItem) :
  In item (items payload) ->
  unit_price item = None ->
  no_such_material db (material_id item) ->
  (exists e, create_order new_id payload db = (db, Raise e))
  /\ (forall status cust,
        list_orders status cust (create_order new_id payload db).1
        = list_orders status cust db)
  /\ (forall pre post,
        items payload = pre ++ item :: post ->
        Forall (fun it => exists it', resolve_item db it = Ok it') pre ->
        create_order new_id payload db =
        (db, Raise match ObjectId_of_str (material_id item) with
                   | Some _ => HTTPException 404 ("Material saknas: " +:+ material_id item)
                   | None => HTTPException 400 "Ogiltigt ID"
                   end)).
Proof.
  intros Hin Hnone Hno.
  pose proof (resolve_item_dangling db item Hnone Hno) as Hres.
  assert (Hfail : exists e, create_order new_id payload db = (db, Raise e)).
  { destruct (mapM_result_In_Raise (resolve_item db) _ _ _ Hin Hres) as [e He].
    exists e. rewrite create_order_run, He. reflexivity. }
  split; [exact Hfail|]. split.
  - intros status cust. destruct Hfail as [e ->]. reflexivity.
  - intros pre post Hsplit Hpre. rewrite create_order_run, Hsplit.
    rewrite (mapM_result_first_Raise (resolve_item db) pre post item _ Hpre Hres).
    reflexivity.
Qed.

Lemma resolve_item_same (db : database) (a b : OrderItem) :
  same_but_priced_ref a b ->
  (exists e, resolve_item db a = Raise e /\ resolve_item db b = Raise e)
  \/ (exists a' b', resolve_item db a = Ok a' /\ resolve_item db b = Ok b'
                    /\ same_line a' b').
Proof.
  intros (Hq & Hp & Hm). destruct (unit_price a) as [p|] eqn:Ha.
  - right. exists a, b. unfold resolve_item. rewrite Ha, <- Hp.
    split; [reflexivity|]. split; [reflexivity|]. split; congruence.
  - assert (b = a) as ->.
    { destruct a, b; simpl in *. rewrite Hm by reflexivity. congruence. }
    destruct (resolve_item db a) as [a'|e]; [right|left]; eauto.
    exists a', a'. repeat split.
Qed.

Lemma resolve_items_same (db : database) (its its' : list OrderItem) :
  Forall2 same_but_priced_ref its its' ->
  (exists e, mapM (resolve_item db) its = Raise e
             /\ mapM (resolve_item db) its' = Raise e)
  \/ (exists k k', mapM (resolve_item db) its = Ok k
                   /\ mapM (resolve_item db) its' = Ok k'
                   /\ Forall2 same_line k k').
Proof.
  induction 1 as [|a b its its' Hab _ IH].
  - right. exists [], []. repeat split. constructor.
  - rewrite !mapM_result_cons.
    destruct (resolve_item_same db a b Hab)
      as [(e & -> & ->)|(a' & b' & -> & -> & Hl)]; [left; eauto|].
    rewrite !result_bind_Ok.
    destruct IH as [(e & -> & ->)|(k & k' & -> & -> & Hk)]; [left; eauto|].
    right. exists (a' :: k), (b' :: k'). repeat split. constructor; assumption.
Qed.

(** C5. The reference of an item that carries its own price is never
    decoded nor looked up.  With a price on every item the order is created
    whatever the references are; replacing the references of priced items
    by any others changes neither the answer nor the exception; and when
    [create_order] raises, the exception comes from an item without a
    price. *)
Theorem priced_items_are_never_looked_up (new_id : ObjectId) (payload : Order)
    (db : database) :
  (Forall (fun it => is_Some (unit_price it)) (items payload) ->
   exists db' r, create_order new_id payload db = (db', Ok r))
  /\ (forall its',
        Forall2 same_but_priced_ref (items payload) its' ->
        (create_order new_id (set_items payload its') db).2
        = (create_order new_id payload db).2)
  /\ (forall db' e,
        create_order new_id payload db = (db', Raise e) ->
        exists item, In item (items payload) /\ unit_price item = None
                     /\ resolve_item db item = Raise e).
Proof.
  split; [|split].
  - intros Hall. rewrite create_order_run, (resolve_items_priced _ _ Hall). eauto.
  - intros its' Hrel. rewrite !create_order_run. cbn [items set_items].
    destruct (resolve_items_same db _ _ Hrel)
      as [(e & -> & ->)|(k & k' & -> & -> & Hk)]; [reflexivity|].
    cbv zeta. cbn [snd]. rewrite (order_sum_same_lines _ _ Hk). reflexivity.
  - intros db' e Hrun. apply create_order_Raise_inv in Hrun as [_ Hrun].
    apply mapM_result_Raise_inv in Hrun as (item & Hin & Hres).
    exists item. split; [exact Hin|]. split; [|exact Hres].
    destruct (unit_price item) eqn:Hp; [|reflexivity].
    unfold resolve_item in Hres. rewrite Hp in Hres. discriminate.
Qed.

End Unpriced.

Lemma unpriced_item_without_material_fails_witness :
  create_order Scenario.id_order
    (Scenario.order_of (ObjectId_str Scenario.id_alice)
       [Scenario.priced_line; Scenario.dangling_line])
    Scenario.shop
  = (Scenario.shop,
     Raise (HTTPException 404 "Material saknas: 000000000000000000000005"))
  /\ create_order Scenario.id_order
       (Scenario.order_of (ObjectId_str Scenario.id_alice) [Scenario.spaced_line])
       Scenario.shop
     = (Scenario.shop,
        Raise (HTTPException 404 "Material saknas: 00 00 00 00 00 00 00 2a ")).
Proof.
  split.
  - destruct (unpriced_item_without_material_fails Scenario.id_order
                (Scenario.order_of (ObjectId_str Scenario.id_alice)
                   [Scenario.priced_line; Scenario.dangling_line])
                Scenario.shop Scenario.dangling_line)
      as (_ & _ & Hfirst).
    + right. left. reflexivity.
    + reflexivity.
    + intros o Ho. vm_compute in Ho. injection Ho as <-.
      rewrite shop_materials. vm_compute. reflexivity.
    + rewrite (Hfirst [Scenario.priced_line] [] eq_refl).
      * f_equal.
      * repeat constructor. eexists. reflexivity.
  - destruct (unpriced_item_without_material_fails Scenario.id_order
                (Scenario.order_of (ObjectId_str Scenario.id_alice)
                   [Scenario.spaced_line])
                Scenario.shop Scenario.spaced_line)
      as (_ & _ & Hfirst).
    + left. reflexivity.
    + reflexivity.
    + intros o Ho. vm_compute in Ho. injection Ho as <-.
      rewrite shop_materials. vm_compute. reflexivity.
    + rewrite (Hfirst [] [] eq_refl); [f_equal|constructor].
Defined.

(** C3 as the specification words it does not hold.  The second line below
    has no price and a well-formed reference that matches no material, yet
    the order fails with 400 (invalid identifier), the exception of the
    malformed line before it, and not with 404; an order with the malformed
    line alone fails with 400 as well. *)
Lemma dangling_item_is_not_always_MaterialNotFound :
  In Scenario.dangling_line
     (items (Scenario.order_of (ObjectId_str Scenario.id_alice)
               [Scenario.malformed_line; Scenario.dangling_line]))
  /\ unit_price Scenario.dangling_line = None
  /\ no_such_material Scenario.shop (material_id Scenario.dangling_line)
  /\ create_order Scenario.id_order
       (Scenario.order_of (ObjectId_str Scenario.id_alice)
          [Scenario.malformed_line; Scenario.dangling_line])
       Scenario.shop
     = (Scenario.shop, Raise (HTTPException 400 "Ogiltigt ID"))
  /\ ~ (exists detail,
          (create_order Scenario.id_order
             (Scenario.order_of (ObjectId_str Scenario.id_alice)
                [Scenario.malformed_line; Scenario.dangling_line])
             Scenario.shop).2
          = Raise (HTTPException 404 detail))
  /\ no_such_material Scenario.shop (material_id Scenario.malformed_line)
  /\ create_order Scenario.id_order
       (Scenario.order_of (ObjectId_str Scenario.id_alice) [Scenario.malformed_line])
       Scenario.shop
     = (Scenario.shop, Raise (HTTPException 400 "Ogiltigt ID")).
Proof.
  assert (Hboth : create_order Scenario.id_order
            (Scenario.order_of (ObjectId_str Scenario.id_alice)
               [Scenario.malformed_line; Scenario.dangling_line])
            Scenario.shop
          = (Scenario.shop, Raise (HTTPException 400 "Ogiltigt ID"))).
  { apply create_order_Raise_of. vm_compute. reflexivity. }
  split; [right; left; reflexivity|]. split; [reflexivity|]. split.
  { intros o Ho. vm_compute in Ho. injection Ho as <-.
    rewrite shop_materials. vm_compute. reflexivity. }
  split; [exact Hboth|]. split.
  { intros [detail Hd]. rewrite Hboth in Hd. discriminate Hd. }
  split; [|apply create_order_Raise_of; vm_compute; reflexivity].
  intros o Ho. vm_compute in Ho. discriminate Ho.
Qed.

Lemma priced_items_are_never_looked_up_witness :
  (exists db' r,
     create_order Scenario.id_order
       (Scenario.order_of "nobody" [Scenario.priced_line]) Scenario.shop
     = (db', Ok r))
  /\ (create_order Scenario.id_order
        (set_items (Scenario.order_of "nobody" [Scenario.priced_line])
           [set_unit_price Scenario.dangling_line 1.5%float;
            Scenario.screws_unpriced])
        Scenario.shop).2
     = (create_order Scenario.id_order
          (Scenario.order_of "nobody"
             [set_unit_price Scenario.malformed_line 1.5%float;
              Scenario.screws_unpriced])
          Scenario.shop).2.
Proof.
  split.
  - apply (proj1 (priced_items_are_never_looked_up Scenario.id_order
                    (Scenario.order_of "nobody" [Scenario.priced_line])
                    Scenario.shop)).
    repeat constructor. eexists. reflexivity.
  - apply (proj1 (proj2 (priced_items_are_never_looked_up Scenario.id_order
                    (Scenario.order_of "nobody"
                       [set_unit_price Scenario.malformed_line 1.5%float;
                        Scenario.screws_unpriced])
                    Scenario.shop))).
    repeat constructor; simpl; try reflexivity; discriminate.
Defined.

(** ** Listings *)

Lemma filter_all {A} (l : list A) : List.filter (fun _ => true) l = l.
Proof. induction l as [|x l IH]; [reflexivity|]. simpl. rewrite IH. reflexivity. Qed.

Section RegexFacts.

Lemma match_here_literal (q s : list ascii) :
  Regex.match_here true (Regex.Lit <$> q) s = true <->
  exists post, Regex.lower <$> s = (Regex.lower <$> q) ++ post.
Proof.
  revert s. induction q as [|c q IH]; intros s.
  - simpl. split; [intros _; eexists; reflexivity|reflexivity].
  - destruct s as [|d s]; simpl.
    + split; [discriminate|]. intros [post Hp]. discriminate Hp.
    + rewrite andb_true_iff, IH, Ascii.eqb_eq. split.
      * intros [Hc [post Hp]]. exists post. rewrite Hc. f_equal. exact Hp.
      * intros [post Hp]. injection Hp as Hc Hp.
        split; [symmetry; exact Hc|]. exists post. exact Hp.
Qed.

Lemma search_literal (q s : list ascii) :
  Regex.search true (Regex.Lit <$> q) s = true <->
  exists pre post, Regex.lower <$> s = pre ++ (Regex.lower <$> q) ++ post.
Proof.
  induction s as [|d s IH].
  - simpl. rewrite orb_false_r, match_here_literal. split.
    + intros [post Hp]. exists [], post. exact Hp.
    + intros (pre & post & Hp). symmetry in Hp.
      apply app_eq_nil in Hp as [-> Hp]. exists post. simpl. congruence.
  - cbn [Regex.search]. rewrite orb_true_iff, IH, match_here_literal. split.
    + intros [[post Hp]|(pre & post & Hp)].
      * exists [], post. exact Hp.
      * exists (Regex.lower d :: pre), post. rewrite fmap_cons, Hp. reflexivity.
    + intros (pre & post & Hp). destruct pre as [|c pre].
      * left. exists post. exact Hp.
      * right. exists pre, post. rewrite fmap_cons in Hp. simpl in Hp.
        injection Hp as _ Hp. exact Hp.
Qed.

Lemma is_literal_not_dot (c : ascii) :
  Regex.is_literal c = true -> Ascii.eqb c "." = false.
Proof.
  intros Hc. destruct (Ascii.eqb c ".") eqn:Hdot; [|reflexivity].
  apply Ascii.eqb_eq in Hdot as ->. discriminate Hc.
Qed.

Lemma compile_plain (q : list ascii) :
  forallb Regex.is_literal q = true ->
  Regex.compile q = Some (Regex.Lit <$> q).
Proof.
  induction q as [|c q IH]; [reflexivity|]. simpl.
  rewrite andb_true_iff. intros [Hc Hq].
  rewrite (is_literal_not_dot _ Hc), Hc, (IH Hq). reflexivity.
Qed.

End RegexFacts.

(** The test that a literal pattern makes of a field is containment
    without case. *)
Lemma field_holds_literal (q : string) (d : doc) (k : string) :
  field_holds
    (fun v => match v with
              | VStr s => Regex.search true (Regex.Lit <$> list_ascii_of_string q)
                            (list_ascii_of_string s)
              | _ => false
              end) d k = true
  <-> field_contains_ci q d k.
Proof.
  unfold field_holds, field_contains_ci.
  destruct (d !! k) as [[| | | |s| | |l|]|]; try (split; [discriminate|intros []]).
  - apply search_literal.
  - rewrite existsb_exists. split.
    + intros (v & Hin & Hv). destruct v as [| | | |s| | | |]; try discriminate.
      exists s. split; [exact Hin|]. apply search_literal, Hv.
    + intros (s & Hin & Hs). exists (VStr s). split; [exact Hin|].
      apply search_literal, Hs.
Qed.

Lemma field_holds_matches (matches : string -> bool) (d : doc) (k : string) :
  field_holds (fun v => match v with VStr s => matches s | _ => false end) d k = true
  <-> field_matches matches d k.
Proof.
  unfold field_holds, field_matches.
  destruct (d !! k) as [[| | | |s| | |l|]|]; try (split; [discriminate|intros []]).
  - reflexivity.
  - rewrite existsb_exists. split.
    + intros (v & Hin & Hv). destruct v as [| | | |s| | | |]; try discriminate.
      exists s. split; assumption.
    + intros (s & Hin & Hs). exists (VStr s). split; assumption.
Qed.

Lemma customer_kept_matches (matches : string -> bool) (d : doc) :
  customer_kept matches d = true
  <-> field_matches matches d "name" \/ field_matches matches d "company".
Proof.
  unfold customer_kept.
  rewrite !orb_true_iff, !andb_true_iff, !field_holds_matches. split.
  - intros [[Hn _]|[[Hc _]|Hf]]; [left|right|discriminate]; assumption.
  - intros [Hn|Hc]; [left|right; left]; split; auto.
Qed.

Section CustomerListing.
Context `{Runtime}.

Lemma get_documents_all (name : string) (db : database) :
  get_documents name (Fields []) db = (db, Ok (collection db name)).
Proof. unfold get_documents, find. simpl. rewrite filter_all. reflexivity. Qed.

Lemma list_customers_unfiltered (db : database) :
  list_customers None db = (db, mapM serialize (collection db "customer")).
Proof.
  unfold list_customers. rewrite M_bind_run, get_documents_all. reflexivity.
Qed.

Lemma matcher_plain (q : string) :
  plain q = true -> Regex.matcher q "i" = Some (plain_matcher q).
Proof.
  intros Hq. unfold Regex.matcher. simpl.
  rewrite (compile_plain _ Hq). reflexivity.
Qed.

(** On a field of ASCII text the test of a plain [q] is containment
    without case. *)
Lemma field_matches_plain (q : string) (d : doc) (k : string) :
  ascii_field d k ->
  field_matches (plain_matcher q) d k <-> field_contains_ci q d k.
Proof.
  unfold ascii_field, field_matches, field_contains_ci, plain_matcher.
  destruct (d !! k) as [[| | | |s| | |l|]|]; intros Ha; try reflexivity.
  - rewrite Ha. apply search_literal.
  - split; intros (s & Hin & Hs); exists s; (split; [exact Hin|]);
      rewrite (Ha s Hin) in *; apply search_literal, Hs.
Qed.

Lemma list_customers_run (q : string) (db : database) (matches : string -> bool) :
  q <> ""%string ->
  Regex.matcher q "i" = Some matches ->
  list_customers (Some q) db
  = (db, mapM serialize (List.filter (customer_kept matches) (collection db "customer"))).
Proof.
  intros Hq Hm. unfold list_customers. simpl truthy.
  apply String.eqb_neq in Hq. rewrite Hq. cbn [negb].
  rewrite M_bind_run. unfold get_documents, find.
  cbn [filter_pred any_of all_of cond_pred]. rewrite Hm. reflexivity.
Qed.

Lemma list_customers_bad_pattern (q : string) (db : database) :
  q <> ""%string ->
  Regex.matcher q "i" = None ->
  list_customers (Some q) db = (db, Raise OperationFailure).
Proof.
  intros Hq Hm. unfold list_customers. simpl truthy.
  apply String.eqb_neq in Hq. rewrite Hq. cbn [negb].
  rewrite M_bind_run. unfold get_documents, find.
  cbn [filter_pred any_of all_of cond_pred]. rewrite Hm. reflexivity.
Qed.

(** C6, as the code has it.  Without a filter, or with an empty one, every
    customer is returned, serialized.  A filter [q] that is not empty is
    handed to the store as a regular expression with the option [i]: the
    customers returned are those whose [name] or [company] the expression
    is found in, in the order of the store, and the request fails when the
    store refuses the expression.  When [q] is made of ASCII characters
    none of which has a meaning in regular expressions, then among the
    customers whose [name] and [company] are ASCII text, those returned
    are exactly those whose [name] or [company] contains [q], ASCII
    letters compared without case. *)
Theorem list_customers_filter (db : database) (q : string) :
  list_customers None db = (db, mapM serialize (collection db "customer"))
  /\ list_customers (Some ""%string) db = list_customers None db
  /\ (q <> ""%string ->
      match Regex.matcher q "i" with
      | Some matches =>
          exists keep : doc -> bool,
            list_customers (Some q) db
            = (db, mapM serialize (List.filter keep (collection db "customer")))
            /\ forall d, keep d = true <->
                         field_matches matches d "name"
                         \/ field_matches matches d "company"
      | None => list_customers (Some q) db = (db, Raise OperationFailure)
      end)
  /\ (plain q = true -> q <> ""%string ->
      exists keep : doc -> bool,
        list_customers (Some q) db
        = (db, mapM serialize (List.filter keep (collection db "customer")))
        /\ forall d, ascii_field d "name" -> ascii_field d "company" ->
                     (keep d = true <->
                      field_contains_ci q d "name" \/ field_contains_ci q d "company")).
Proof.
  split; [apply list_customers_unfiltered|]. split; [reflexivity|]. split.
  - intros Hne. destruct (Regex.matcher q "i") as [matches|] eqn:Hm.
    + exists (customer_kept matches). split.
      * apply list_customers_run; assumption.
      * apply customer_kept_matches.
    + apply list_customers_bad_pattern; assumption.
  - intros Hplain Hne. exists (customer_kept (plain_matcher q)). split.
    + apply list_customers_run; [exact Hne|apply matcher_plain, Hplain].
    + intros d Hn Hc.
      rewrite customer_kept_matches, !field_matches_plain by assumption.
      reflexivity.
Qed.

End CustomerListing.

Section ListingRuns.
Context `{Runtime}.

Lemma serialize_stored_record (o : ObjectId) (record : doc) :
  record !! "_id" = None -> record !! "items" = None ->
  serialize (<["_id" := VOid o]> record) = Ok (<["id" := VStr (ObjectId_str o)]> record).
Proof.
  intros Hid Hitems. unfold serialize, dict_get.
  rewrite lookup_insert_eq. rewrite (delete_insert_id record "_id") by exact Hid.
  rewrite lookup_insert_ne by discriminate. rewrite Hitems. reflexivity.
Qed.

End ListingRuns.

Lemma shop_customers :
  collection Scenario.shop "customer"
  = [Scenario.stored_customer Scenario.id_alice (Scenario.customer_named "Alice" None);
     Scenario.stored_customer Scenario.id_bob
       (Scenario.customer_named "Bob" (Some "Smithson AB"%string))].
Proof.
  unfold Scenario.shop, create_customer, create_material.
  rewrite !collection_create_document. reflexivity.
Qed.

(** The example of the specification: searching ["smith"] finds the
    customer whose company is Smithson AB, and only that one. *)
Lemma list_customers_filter_witness :
  (exists keep : doc -> bool,
     list_customers (Some "smith"%string) Scenario.shop
     = (Scenario.shop,
        mapM serialize (List.filter keep (collection Scenario.shop "customer")))
     /\ forall d, ascii_field d "name" -> ascii_field d "company" ->
                  (keep d = true <->
                   field_contains_ci "smith" d "name"
                   \/ field_contains_ci "smith" d "company"))
  /\ (list_customers (Some "smith"%string) Scenario.shop).2
     = Ok [Scenario.listed_customer Scenario.id_bob
             (Scenario.customer_named "Bob" (Some "Smithson AB"%string))].
Proof.
  split.
  - apply (proj2 (proj2 (proj2 (list_customers_filter Scenario.shop "smith"))));
      [reflexivity|discriminate].
  - rewrite (list_customers_run "smith" Scenario.shop _ ltac:(discriminate)
               (matcher_plain "smith" eq_refl)).
    cbn [snd]. rewrite shop_customers. cbn [List.filter].
    replace (customer_kept _ (Scenario.stored_customer Scenario.id_alice _))
      with false by (vm_compute; reflexivity).
    replace (customer_kept _ (Scenario.stored_customer Scenario.id_bob _))
      with true by (vm_compute; reflexivity).
    rewrite mapM_result_cons.
    unfold Scenario.stored_customer. rewrite serialize_stored_record by reflexivity.
    reflexivity.
Defined.

(** C6 as the specification words it does not hold: the filter is a
    pattern, not a text to find.  With [q = "."] both customers of the shop
    are returned, and neither has a dot in its name or company. *)
Lemma dot_filter_returns_customers_without_dot :
  (list_customers (Some "."%string) Scenario.shop).2
  = Ok [Scenario.listed_customer Scenario.id_alice (Scenario.customer_named "Alice" None);
        Scenario.listed_customer Scenario.id_bob
          (Scenario.customer_named "Bob" (Some "Smithson AB"%string))]
  /\ Forall (fun d => ~ (field_contains_ci "." d "name"
                         \/ field_contains_ci "." d "company"))
       (collection Scenario.shop "customer").
Proof.
  split.
  - rewrite (list_customers_run "." Scenario.shop
               (fun subject =>
                  if Regex.ascii_text subject
                  then Regex.search true [Regex.AnyChar] (list_ascii_of_string subject)
                  else pcre_search "." "i" subject)
               ltac:(discriminate) eq_refl).
    cbn [snd]. rewrite shop_customers. cbn [List.filter].
    replace (customer_kept _ (Scenario.stored_customer Scenario.id_alice _))
      with true by (vm_compute; reflexivity).
    replace (customer_kept _ (Scenario.stored_customer Scenario.id_bob _))
      with true by (vm_compute; reflexivity).
    rewrite !mapM_result_cons.
    unfold Scenario.stored_customer. rewrite !serialize_stored_record by reflexivity.
    reflexivity.
  - rewrite shop_customers.
    repeat constructor; rewrite <- !field_holds_literal;
      intros [Hc|Hc]; vm_compute in Hc; discriminate Hc.
Qed.

(** ** Listing orders *)

Section OrderListing.
Context `{Runtime}.

Lemma find_referenced_run (coll : string) (d : doc) (k : string) (db : database) :
  find_referenced coll d k db = (db, referenced db coll d k).
Proof.
  unfold find_referenced, referenced.
  destruct (truthy (dict_get d k VNone)); [|reflexivity].
  rewrite M_bind_run, lift_run. destruct (oid _) as [o|e]; [|reflexivity].
  rewrite find_one_by_id. reflexivity.
Qed.

Lemma enrich_run (d : doc) (db : database) : enrich d db = (db, enriched db d).
Proof.
  unfold enrich, enriched. rewrite M_bind_run, find_referenced_run.
  destruct (referenced db "customer" d "customer_id") as [c|e]; [|reflexivity].
  rewrite M_bind_run, find_referenced_run.
  destruct (referenced db "installer" d "installer_id") as [i|e]; [|reflexivity].
  rewrite M_bind_run, lift_run. destruct (serialize d); reflexivity.
Qed.

Lemma mapM_enrich_run (docs : list doc) (db : database) :
  mapM enrich docs db = (db, mapM (enriched db) docs).
Proof.
  induction docs as [|d docs IH]; [reflexivity|].
  rewrite mapM_result_cons.
  change (mapM enrich (d :: docs))
    with (y ← enrich d; k ← mapM enrich docs; mret (y :: k)).
  rewrite M_bind_run, enrich_run. destruct (enriched db d) as [y|e]; [|reflexivity].
  rewrite M_bind_run, IH. destruct (mapM (enriched db) docs); reflexivity.
Qed.

Lemma list_orders_run (status cust : option string) (db : database) :
  list_orders status cust db = (db, mapM (enriched db) (listed_orders status cust db)).
Proof.
  unfold list_orders, listed_orders. rewrite M_bind_run.
  unfold get_documents, find.
  assert (Hsel : exists p,
    filter_pred (Fields
      (match status with
       | Some s => if truthy (VStr s) then [("status"%string, EqStr s)] else []
       | None => []
       end ++
       match cust with
       | Some c => if truthy (VStr c) then [("customer_id"%string, EqStr c)] else []
       | None => []
       end)) = Ok p /\ forall d, p d = order_selected status cust d).
  { unfold order_selected, string_field_is. simpl truthy.
    destruct status as [s|]; destruct cust as [c|];
      try destruct (String.eqb s ""); try destruct (String.eqb c "");
      eexists; (split; [reflexivity|]); intros d; cbv beta; cbn [negb andb];
      rewrite ?andb_true_r; reflexivity. }
  destruct Hsel as (p & -> & Hp). rewrite result_bind_Ok.
  rewrite (filter_ext _ _ Hp). apply mapM_enrich_run.
Qed.

(** C10. An empty string as a filter is no filter: [status=""] or
    [customer_id=""] list what the absent filter lists, which is every
    order of the store, and [q=""] lists every customer. *)
Theorem empty_filter_is_no_filter (x : option string) (db : database) :
  list_orders (Some ""%string) x db = list_orders None x db
  /\ list_orders x (Some ""%string) db = list_orders x None db
  /\ list_orders (Some ""%string) (Some ""%string) db
     = (db, mapM (enriched db) (collection db "order"))
  /\ list_customers (Some ""%string) db = list_customers None db
  /\ list_customers (Some ""%string) db
     = (db, mapM serialize (collection db "customer")).
Proof.
  split; [reflexivity|]. split; [reflexivity|]. split.
  - rewrite list_orders_run. unfold listed_orders.
    rewrite (filter_ext _ (fun _ => true)) by reflexivity.
    rewrite filter_all. reflexivity.
  - split; [reflexivity|]. apply list_customers_unfiltered.
Qed.

End OrderListing.

Section DanglingReferences.
Context `{Runtime}.

Lemma oid_Raise (v : value) (e : exn) :
  oid v = Raise e -> e = HTTPException 400 "Ogiltigt ID".
Proof. unfold oid. destruct (ObjectId_new v); intros [= <-]. reflexivity. Qed.

Lemma referenced_well_formed (db : database) (coll : string) (d : doc) (k : string) :
  well_formed_ref (dict_get d k VNone) ->
  exists r, referenced db coll d k = Ok r
            /\ (matches_none db coll (dict_get d k VNone) -> r = None).
Proof.
  unfold referenced. intros [Hf|[o Ho]].
  - rewrite Hf. eauto.
  - destruct (truthy _) eqn:Ht; [|eauto]. rewrite Ho, result_bind_Ok.
    eexists. split; [reflexivity|]. intros Hnone. apply (Hnone Ht), Ho.
Qed.

Lemma referenced_malformed (db : database) (coll : string) (d : doc) (k : string) :
  malformed_ref (dict_get d k VNone) ->
  referenced db coll d k = Raise (HTTPException 400 "Ogiltigt ID").
Proof.
  unfold referenced. intros [-> Hbad].
  destruct (oid (dict_get d k VNone)) as [o|e] eqn:Ho; [destruct (Hbad o eq_refl)|].
  rewrite (oid_Raise _ _ Ho). reflexivity.
Qed.

Lemma referenced_Raise (db : database) (coll : string) (d : doc) (k : string) (e : exn) :
  referenced db coll d k = Raise e -> e = HTTPException 400 "Ogiltigt ID".
Proof.
  unfold referenced. destruct (truthy _); [|discriminate].
  destruct (oid _) as [o|e'] eqn:Ho; [discriminate|].
  intros [= <-]. apply (oid_Raise _ _ Ho).
Qed.

Lemma enriched_total (db : database) (d : doc) :
  well_formed_ref (dict_get d "customer_id" VNone) ->
  well_formed_ref (dict_get d "installer_id" VNone) ->
  (exists s, serialize d = Ok s) ->
  exists out, enriched db d = Ok out /\ listed_as db d out.
Proof.
  intros Hc Hi [s Hs]. unfold enriched.
  destruct (referenced_well_formed db "customer" d "customer_id" Hc) as (c & -> & Hcn).
  destruct (referenced_well_formed db "installer" d "installer_id" Hi) as (i & -> & Hin).
  rewrite !result_bind_Ok, Hs, result_bind_Ok.
  eexists. split; [reflexivity|]. split; [|split].
  - exists s. split; [exact Hs|]. intros k Hk1 Hk2.
    rewrite !lookup_insert_ne by congruence. reflexivity.
  - intros Hnone. rewrite (Hcn Hnone).
    rewrite lookup_insert_ne by discriminate. rewrite lookup_insert_eq. reflexivity.
  - intros Hnone. rewrite (Hin Hnone), lookup_insert_eq. reflexivity.
Qed.

Lemma enriched_malformed (db : database) (d : doc) :
  malformed_ref (dict_get d "customer_id" VNone)
  \/ malformed_ref (dict_get d "installer_id" VNone) ->
  enriched db d = Raise (HTTPException 400 "Ogiltigt ID").
Proof.
  unfold enriched. intros [Hc|Hi].
  - rewrite (referenced_malformed _ _ _ _ Hc). reflexivity.
  - destruct (referenced db "customer" d "customer_id") as [c|e] eqn:Hc.
    + rewrite result_bind_Ok, (referenced_malformed _ _ _ _ Hi). reflexivity.
    + rewrite (referenced_Raise _ _ _ _ _ Hc). reflexivity.
Qed.

Lemma enriched_Raise (db : database) (d : doc) (e : exn) :
  (exists s, serialize d = Ok s) ->
  enriched db d = Raise e -> e = HTTPException 400 "Ogiltigt ID".
Proof.
  intros [s Hs]. unfold enriched.
  destruct (referenced db "customer" d "customer_id") as [c|e1] eqn:Hc.
  - rewrite result_bind_Ok.
    destruct (referenced db "installer" d "installer_id") as [i|e2] eqn:Hi.
    + rewrite result_bind_Ok, Hs. discriminate.
    + intros [= <-]. apply (referenced_Raise _ _ _ _ _ Hi).
  - intros [= <-]. apply (referenced_Raise _ _ _ _ _ Hc).
Qed.

(** An order stored by [create_order] serializes: its items are
    dictionaries whose references are strings. *)
Lemma stored_order_serializes (new_id : ObjectId) (payload : Order) :
  serialize (<["_id" := VOid new_id]> (Order_dump payload))
  = Ok (<["id" := VStr (ObjectId_str new_id)]> (Order_dump payload)).
Proof.
  pose proof (mapM_result_fixed serialize_item (OrderItem_dump <$> items payload)) as Hits.
  unfold serialize, dict_get.
  change ((<["_id" := VOid new_id]> (Order_dump payload) : doc) !! "_id")
    with (Some (VOid new_id)).
  cbv iota beta.
  change ((<["id" := VStr (py_str (VOid new_id))]>
             (delete "_id" (<["_id" := VOid new_id]> (Order_dump payload))) : doc)
          !! "items")
    with (Some (VList (OrderItem_dump <$> items payload))).
  cbn [default from_option]. unfold id.
  assert (Hd : delete "_id" (<["_id" := VOid new_id]> (Order_dump payload))
               = Order_dump payload).
  { apply delete_insert_id. reflexivity. }
  rewrite Hd. cbn [py_str].
  destruct (truthy (VList (OrderItem_dump <$> items payload))); [|reflexivity].
  cbn [serialize_items]. rewrite Hits.
  - cbn [fmap result_fmap mbind result_bind]. reflexivity.
  - apply Forall_fmap, Forall_forall. intros it _. reflexivity.
Qed.

Lemma mapM_result_Forall2_total {A B} (f : A -> result B) (R : A -> B -> Prop)
    (l : list A) :
  Forall (fun x => exists y, f x = Ok y /\ R x y) l ->
  exists k, mapM f l = Ok k /\ Forall2 R l k.
Proof.
  induction 1 as [|x l (y & Hy & Hr) _ (k & IH & Hk)].
  - exists []. split; [reflexivity|constructor].
  - exists (y :: k). rewrite mapM_result_cons, Hy, result_bind_Ok, IH.
    split; [reflexivity|]. constructor; assumption.
Qed.

(** C7, as the code has it.  When the references of the listed orders are
    accepted by [ObjectId] (or empty) and the orders serialize,
    [list_orders] returns every listed order, in the order of the store,
    each with [customer_name = None] if its [customer_id] matches no
    customer and [installer_name = None] if its [installer_id] matches no
    installer.  A listed order with a reference that is there and that
    [ObjectId] refuses makes the listing raise.  The exception is 400
    (invalid identifier) when the orders listed before that one have
    accepted references and serialize, and also when all the listed orders
    serialize. *)
Theorem list_orders_dangling_references (status cust : option string) (db : database) :
  (Forall (fun d => well_formed_ref (dict_get d "customer_id" VNone)
                    /\ well_formed_ref (dict_get d "installer_id" VNone)
                    /\ exists s, serialize d = Ok s)
     (listed_orders status cust db) ->
   exists out, list_orders status cust db = (db, Ok out)
               /\ Forall2 (listed_as db) (listed_orders status cust db) out)
  /\ (forall d, In d (listed_orders status cust db) ->
        malformed_ref (dict_get d "customer_id" VNone)
        \/ malformed_ref (dict_get d "installer_id" VNone) ->
        (exists e, list_orders status cust db = (db, Raise e))
        /\ (Forall (fun d => exists s, serialize d = Ok s) (listed_orders status cust db) ->
            list_orders status cust db = (db, Raise (HTTPException 400 "Ogiltigt ID")))
        /\ (forall pre post,
              listed_orders status cust db = pre ++ d :: post ->
              Forall (fun d => well_formed_ref (dict_get d "customer_id" VNone)
                               /\ well_formed_ref (dict_get d "installer_id" VNone)
                               /\ exists s, serialize d = Ok s) pre ->
              list_orders status cust db = (db, Raise (HTTPException 400 "Ogiltigt ID")))).
Proof.
  split.
  - intros Hall. rewrite list_orders_run.
    destruct (mapM_result_Forall2_total (enriched db) (listed_as db)
                (listed_orders status cust db)) as (out & -> & Hout).
    + eapply Forall_impl; [exact Hall|]. intros d (Hc & Hi & Hs).
      apply enriched_total; assumption.
    + exists out. split; [reflexivity|exact Hout].
  - intros d Hin Hbad. rewrite list_orders_run.
    pose proof (enriched_malformed db d Hbad) as Hd.
    destruct (mapM_result_In_Raise (enriched db) _ _ _ Hin Hd) as [e He].
    rewrite He. split; [eauto|]. split.
    + intros Hser.
      apply mapM_result_Raise_inv in He as (x & Hx & Hex).
      rewrite List.Forall_forall in Hser.
      rewrite (enriched_Raise db x e (Hser x Hx) Hex). reflexivity.
    + intros pre post Hsplit Hpre. rewrite Hsplit in He.
      assert (Hok : Forall (fun x => exists out, enriched db x = Ok out) pre).
      { eapply Forall_impl; [exact Hpre|]. intros x (Hc & Hi & Hs).
        destruct (enriched_total db x Hc Hi Hs) as (out & Hout & _). eauto. }
      rewrite (mapM_result_first_Raise (enriched db) pre post d _ Hok Hd) in He.
      injection He as <-. reflexivity.
Qed.

End DanglingReferences.

Lemma shop_with_order_listed (cust : string) :
  listed_orders None None (Scenario.shop_with_order cust)
  = [Scenario.stored_empty_order cust].
Proof.
  unfold listed_orders. rewrite (filter_ext _ (fun _ => true)) by reflexivity.
  rewrite filter_all, shop_with_order_run, collection_with_order, shop_orders.
  reflexivity.
Qed.

(** An order whose customer reference is accepted by [ObjectId] and
    matches nobody is listed, with no customer name and no installer
    name: with a reference of 24 hexadecimal digits, and with one of 24
    characters that spells fewer bytes. *)
Lemma list_orders_dangling_references_witness :
  (exists out,
     list_orders None None (Scenario.shop_with_order (ObjectId_str Scenario.id_free))
     = (Scenario.shop_with_order (ObjectId_str Scenario.id_free), Ok [out])
     /\ out !! "customer_id" = Some (VStr (ObjectId_str Scenario.id_free))
     /\ out !! "customer_name" = Some VNone
     /\ out !! "installer_name" = Some VNone)
  /\ (exists out,
        list_orders None None (Scenario.shop_with_order Scenario.spaced_ref)
        = (Scenario.shop_with_order Scenario.spaced_ref, Ok [out])
        /\ out !! "customer_id" = Some (VStr Scenario.spaced_ref)
        /\ out !! "customer_name" = Some VNone
        /\ out !! "installer_name" = Some VNone).
Proof.
  assert (Hgen : forall ref o,
            truthy (VStr ref) = true ->
            oid (VStr ref) = Ok o ->
            List.find (has_id o) (collection Scenario.shop "customer") = None ->
            exists out,
              list_orders None None (Scenario.shop_with_order ref)
              = (Scenario.shop_with_order ref, Ok [out])
              /\ out !! "customer_id" = Some (VStr ref)
              /\ out !! "customer_name" = Some VNone
              /\ out !! "installer_name" = Some VNone).
  { intros ref o Ht Ho Hfind.
    pose proof (shop_with_order_listed ref) as Hl.
    destruct (proj1 (list_orders_dangling_references None None
                       (Scenario.shop_with_order ref)))
      as (out & Hrun & Hout).
    { rewrite Hl. constructor; [|constructor]. split; [|split].
      - right. exists o. exact Ho.
      - left. reflexivity.
      - eexists. apply stored_order_serializes. }
    rewrite Hl in Hout.
    inversion Hout as [|d o' l l' Hd Hnil]; subst. inversion Hnil; subst.
    destruct Hd as ((s & Hs & Hsame) & Hc & Hi).
    exists o'. split; [exact Hrun|]. split; [|split].
    - rewrite Hsame by discriminate.
      unfold Scenario.stored_empty_order in Hs. rewrite stored_order_serializes in Hs.
      injection Hs as <-. reflexivity.
    - apply Hc. intros _ o2 Ho2.
      change (dict_get (Scenario.stored_empty_order ref) "customer_id" VNone)
        with (VStr ref) in Ho2.
      rewrite Ho in Ho2. injection Ho2 as <-.
      rewrite shop_with_order_run, collection_with_order_ne by discriminate.
      exact Hfind.
    - apply Hi. intros Ht'. discriminate Ht'. }
  split.
  - apply (Hgen _ Scenario.id_free); [reflexivity|reflexivity|].
    rewrite shop_customers. vm_compute. reflexivity.
  - apply (Hgen _ (mkObjectId [Byte.x00; Byte.x00; Byte.x00; Byte.x00;
                               Byte.x00; Byte.x00; Byte.x00; Byte.x2a]));
      [reflexivity|reflexivity|].
    rewrite shop_customers. vm_compute. reflexivity.
Defined.

(** C7 as the specification words it does not hold: [POST /orders] accepts
    any string as [customer_id]; once an order with the reference ["abc"],
    which matches no customer, is stored, [GET /orders] raises 400 instead
    of listing it with no name. *)
Lemma malformed_customer_reference_breaks_listing :
  (create_order Scenario.id_order (Scenario.order_of "abc" []) Scenario.shop).2
  = Ok {| created_id := "000000000000000000000003"; created_total := 0 |}
  /\ listed_orders None None (Scenario.shop_with_order "abc")
     = [Scenario.stored_empty_order "abc"]
  /\ Scenario.stored_empty_order "abc" !! "customer_id" = Some (VStr "abc")
  /\ matches_none (Scenario.shop_with_order "abc") "customer" (VStr "abc")
  /\ list_orders None None (Scenario.shop_with_order "abc")
     = (Scenario.shop_with_order "abc", Raise (HTTPException 400 "Ogiltigt ID")).
Proof.
  split.
  { rewrite (create_order_Ok_of Scenario.id_order (Scenario.order_of "abc" [])
               Scenario.shop [] eq_refl).
    cbn [snd]. f_equal. }
  split; [apply shop_with_order_listed|].
  split; [reflexivity|]. split.
  { intros _ o Ho. vm_compute in Ho. discriminate Ho. }
  rewrite list_orders_run, shop_with_order_listed. f_equal.
Qed.

(** ** The default status *)

Section Status.
Context `{Runtime}.

Lemma Order_init_status (body : OrderFields) (payload : Order) :
  Order_init body = Ok payload ->
  status payload = default "ny"%string (f_status body).
Proof.
  unfold Order_init. destruct (_ && _); [|discriminate].
  intros [= <-]. reflexivity.
Qed.

(** C8, as the code has it.  An order created from a body without [status]
    is stored with the default of the schema, which is ["ny"]. *)
Theorem order_status_default (new_id : ObjectId) (body : OrderFields)
    (db db' : database) (r : OrderCreated) :
  f_status body = None ->
  post_orders new_id body db = (db', Ok r) ->
  exists stored,
    last_order db' = Some stored /\ stored !! "status" = Some (VStr "ny").
Proof.
  intros Hnone. unfold post_orders. rewrite M_bind_run, lift_run.
  destruct (Order_init body) as [payload|e] eqn:Hinit; [|discriminate].
  apply Order_init_status in Hinit. rewrite Hnone in Hinit. simpl in Hinit.
  intros Hrun. apply create_order_Ok_inv in Hrun as (its & _ & -> & _).
  eexists. split; [apply last_order_with_order|].
  rewrite stored_order_status. simpl. rewrite Hinit. reflexivity.
Qed.

End Status.

Lemma order_status_default_witness :
  exists stored,
    last_order
      (post_orders Scenario.id_order
         (Scenario.fields_of (ObjectId_str Scenario.id_alice) [Scenario.screws_unpriced])
         Scenario.shop).1
    = Some stored
    /\ stored !! "status" = Some (VStr "ny").
Proof.
  apply (order_status_default Scenario.id_order
           (Scenario.fields_of (ObjectId_str Scenario.id_alice)
              [Scenario.screws_unpriced])
           Scenario.shop _
           {| created_id := "000000000000000000000003"; created_total := 10 |}
           eq_refl).
  erewrite post_orders_Ok_of;
    [|vm_compute; reflexivity|vm_compute; reflexivity].
  cbn [fst]. f_equal.
Defined.

(** C8 as the specification words it does not hold: the status stored for
    a body without [status] is ["ny"], not ["new"]. *)
Lemma default_status_is_not_new :
  f_status (Scenario.fields_of (ObjectId_str Scenario.id_alice)
              [Scenario.screws_unpriced]) = None
  /\ (post_orders Scenario.id_order
        (Scenario.fields_of (ObjectId_str Scenario.id_alice) [Scenario.screws_unpriced])
        Scenario.shop).2
     = Ok {| created_id := "000000000000000000000003"; created_total := 10 |}
  /\ exists stored,
       last_order
         (post_orders Scenario.id_order
            (Scenario.fields_of (ObjectId_str Scenario.id_alice)
               [Scenario.screws_unpriced])
            Scenario.shop).1
       = Some stored
       /\ stored !! "status" = Some (VStr "ny")
       /\ stored !! "status" <> Some (VStr "new").
Proof.
  split; [reflexivity|].
  erewrite post_orders_Ok_of;
    [|vm_compute; reflexivity|vm_compute; reflexivity].
  cbn [fst snd]. split; [f_equal; vm_compute; reflexivity|].
  eexists. split; [apply last_order_with_order|].
  split; [reflexivity|]. rewrite stored_order_status. discriminate.
Qed.

(* ===================================================================== *)
(** * Further properties of the handlers *)
(* ===================================================================== *)

(** ** What [serialize] touches *)

Section SerializeMore.
Context `{Runtime}.

Lemma serialize_item_Ok_inv (v v' : value) :
  serialize_item v = Ok v' -> item_serialized v v'.
Proof.
  destruct v as [| | | | | | | |m]; try discriminate.
  rewrite serialize_item_reference. intros [= <-]. exists m. auto.
Qed.

Lemma serialize_item_Raise (v : value) (e : exn) :
  serialize_item v = Raise e -> e = AttributeError /\ is_dict v = false.
Proof.
  destruct v as [| | | | | | | |m]; try (intros [= <-]; auto).
  rewrite serialize_item_reference. discriminate.
Qed.

(** The document after the first statement of [serialize]. *)
Lemma serialize_renamed_lookup (d : doc) (k : string) :
  k <> "_id"%string -> k <> "id"%string ->
  match d !! "_id" with
  | Some v => <["id" := VStr (py_str v)]> (delete "_id" d)
  | None => d
  end !! k = d !! k.
Proof.
  intros Hk1 Hk2. destruct (d !! "_id"); [|reflexivity].
  rewrite lookup_insert_ne by congruence. apply lookup_delete_ne. congruence.
Qed.

(** [serialize] changes ["_id"], ["id"] and ["items"] and nothing else;
    ["id"] only when there was an ["_id"], and ["items"] only when it is
    true. *)
Theorem serialize_keeps_other_fields (d d' : doc) :
  serialize d = Ok d' ->
  (forall k, k <> "_id"%string -> k <> "id"%string -> k <> "items"%string ->
             d' !! k = d !! k)
  /\ (d !! "_id" = None -> d' !! "id" = d !! "id")
  /\ (truthy (dict_get d "items" VNone) = false -> d' !! "items" = d !! "items").
Proof.
  unfold serialize, dict_get.
  rewrite (serialize_renamed_lookup d "items") by discriminate.
  destruct (truthy (default VNone (d !! "items"))) eqn:Ht.
  - destruct (serialize_items _) as [its|e]; [|discriminate].
    rewrite result_bind_Ok. intros [= <-]. split; [|split].
    + intros k Hk1 Hk2 Hk3. rewrite lookup_insert_ne by congruence.
      apply serialize_renamed_lookup; assumption.
    + intros Hid. rewrite lookup_insert_ne by discriminate. rewrite Hid. reflexivity.
    + discriminate.
  - intros [= <-]. split; [|split].
    + intros k Hk1 Hk2 _. apply serialize_renamed_lookup; assumption.
    + intros Hid. rewrite Hid. reflexivity.
    + intros _. apply serialize_renamed_lookup; discriminate.
Qed.

(** When ["items"] is a list, [serialize] keeps its length and order:
    every item is a dictionary and comes out with only its [material_id]
    made a string, if it was an [ObjectId]. *)
Theorem serialize_items_in_place (d d' : doc) (l : list value) :
  serialize d = Ok d' ->
  d !! "items" = Some (VList l) ->
  exists l', d' !! "items" = Some (VList l') /\ Forall2 item_serialized l l'.
Proof.
  unfold serialize, dict_get.
  rewrite (serialize_renamed_lookup d "items") by discriminate.
  intros Hd Hl. rewrite Hl in Hd. cbn [default from_option] in Hd. unfold id in Hd.
  destruct l as [|x l].
  - cbn [truthy] in Hd. injection Hd as <-. exists [].
    rewrite serialize_renamed_lookup by discriminate. split; [exact Hl|constructor].
  - cbn [truthy serialize_items] in Hd.
    destruct (mapM serialize_item (x :: l)) as [l'|e] eqn:Hm; [|discriminate].
    cbn [fmap result_fmap mbind result_bind] in Hd. injection Hd as <-.
    exists l'. split; [apply lookup_insert_eq|].
    apply mapM_result_Ok_Forall2 in Hm.
    eapply Forall2_impl; [exact Hm|]. intros v v'. apply serialize_item_Ok_inv.
Qed.

(** The ways [serialize] fails: on a true ["items"] that cannot be
    iterated, with [TypeError]; on items that are not all dictionaries, and
    on a non-empty string or dictionary, with [AttributeError]. *)
Theorem serialize_failures (d : doc) (v : value) :
  d !! "items" = Some v ->
  (not_iterable v = true -> serialize d = Raise TypeError)
  /\ (forall l, v = VList l -> Exists (fun x => is_dict x = false) l ->
                serialize d = Raise AttributeError)
  /\ (truthy v = true -> (exists s, v = VStr s) \/ (exists m, v = VDict m) ->
      serialize d = Raise AttributeError).
Proof.
  intros Hv. unfold serialize, dict_get.
  rewrite (serialize_renamed_lookup d "items") by discriminate.
  rewrite Hv. cbn [default from_option]. unfold id. split; [|split].
  - intros Hn. destruct v; try discriminate; simpl in Hn; simpl truthy;
      rewrite Hn; reflexivity.
  - intros l -> Hex.
    assert (Hm : mapM serialize_item l = Raise AttributeError).
    { clear Hv. induction Hex as [x l Hx|x l _ IH]; rewrite mapM_result_cons.
      - destruct x; try reflexivity. discriminate.
      - destruct (serialize_item x) as [y|e] eqn:Hx.
        + rewrite result_bind_Ok, IH. reflexivity.
        + apply serialize_item_Raise in Hx as [-> _]. reflexivity. }
    destruct l as [|x l]; [inversion Hex|].
    cbn [truthy serialize_items]. rewrite Hm. reflexivity.
  - intros Ht [[s ->]|[m ->]]; rewrite Ht; simpl in Ht; simpl.
    + apply negb_true_iff in Ht. rewrite Ht. reflexivity.
    + apply negb_true_iff in Ht. rewrite Ht. reflexivity.
Qed.

End SerializeMore.

(** ** Identifiers as strings *)

Lemma hex_digit_val (d : N) : (d < 16)%N -> Hex.digit_val (Hex.digit d) = Some d.
Proof.
  intros Hd.
  assert (Hcases : In d [0; 1; 2; 3; 4; 5; 6; 7; 8; 9; 10; 11; 12; 13; 14; 15]%N).
  { simpl. lia. }
  simpl in Hcases.
  repeat (destruct Hcases as [<-|Hcases]; [reflexivity|]). destruct Hcases.
Qed.

Lemma hex_digit_not_space (d : N) : (d < 16)%N -> Hex.is_space (Hex.digit d) = false.
Proof.
  intros Hd.
  assert (Hcases : In d [0; 1; 2; 3; 4; 5; 6; 7; 8; 9; 10; 11; 12; 13; 14; 15]%N).
  { simpl. lia. }
  simpl in Hcases.
  repeat (destruct Hcases as [<-|Hcases]; [reflexivity|]). destruct Hcases.
Qed.

Lemma hex_byte_of_digits (b : Byte.byte) :
  Hex.byte_of (16 * (Byte.to_N b / 16) + Byte.to_N b mod 16) = b.
Proof.
  unfold Hex.byte_of. rewrite <- N.div_mod by discriminate.
  rewrite Byte.of_to_N. reflexivity.
Qed.

Lemma hex_fromhex_hexlify (bs : list Byte.byte) :
  Hex.fromhex (Hex.hexlify bs) = Some bs.
Proof.
  induction bs as [|b bs IH]; [reflexivity|].
  assert (Htop : (Byte.to_N b / 16 < 16)%N).
  { apply N.Div0.div_lt_upper_bound. pose proof (Byte.to_N_bounded b). lia. }
  assert (Hbot : (Byte.to_N b mod 16 < 16)%N) by (apply N.mod_lt; discriminate).
  cbn [Hex.hexlify flat_map app Hex.fromhex].
  rewrite (hex_digit_not_space _ Htop), (hex_digit_val _ Htop), (hex_digit_val _ Hbot).
  fold (Hex.hexlify bs). rewrite IH, hex_byte_of_digits. reflexivity.
Qed.

Lemma hex_hexlify_length (bs : list Byte.byte) :
  length (Hex.hexlify bs) = (2 * length bs)%nat.
Proof.
  induction bs as [|b bs IH]; [reflexivity|].
  cbn [Hex.hexlify flat_map app length]. fold (Hex.hexlify bs). rewrite IH. lia.
Qed.

Lemma string_of_list_ascii_length (l : list ascii) :
  String.length (string_of_list_ascii l) = length l.
Proof. induction l as [|c l IH]; [reflexivity|]. simpl. rewrite IH. reflexivity. Qed.

Section Identifiers.
Context `{Runtime}.

Lemma ObjectId_str_length (o : ObjectId) :
  String.length (ObjectId_str o) = (2 * length (oid_binary o))%nat.
Proof.
  unfold ObjectId_str. rewrite string_of_list_ascii_length. apply hex_hexlify_length.
Qed.

Lemma ObjectId_str_truthy (o : ObjectId) :
  length (oid_binary o) = 12%nat -> truthy (VStr (ObjectId_str o)) = true.
Proof.
  intros Ho. pose proof (ObjectId_str_length o) as Hlen. rewrite Ho in Hlen. simpl.
  destruct (ObjectId_str o); [discriminate Hlen|reflexivity].
Qed.

Lemma oid_ObjectId_str (o : ObjectId) :
  length (oid_binary o) = 12%nat -> oid (VStr (ObjectId_str o)) = Ok o.
Proof.
  intros Ho. apply oid_of_str. unfold ObjectId_of_str.
  rewrite ObjectId_str_length, Ho. cbn [Nat.mul Nat.add Nat.eqb].
  unfold ObjectId_str.
  rewrite list_ascii_of_string_of_list_ascii, hex_fromhex_hexlify.
  destruct o. reflexivity.
Qed.

(** The string form of an identifier of twelve bytes is accepted by [oid]
    and decodes to that identifier; a string that is not 24 characters long
    is refused; and whatever [ObjectId] raises, [oid] raises 400. *)
Theorem oid_of_string_form (o : ObjectId) :
  length (oid_binary o) = 12%nat ->
  oid (VStr (ObjectId_str o)) = Ok o
  /\ (forall s, String.length s <> 24%nat ->
                oid (VStr s) = Raise (HTTPException 400 "Ogiltigt ID"))
  /\ (forall v e, oid v = Raise e -> e = HTTPException 400 "Ogiltigt ID").
Proof.
  intros Ho. split; [apply oid_ObjectId_str, Ho|]. split.
  - intros s Hs. apply oid_of_str_None. unfold ObjectId_of_str.
    apply Nat.eqb_neq in Hs. rewrite Hs. reflexivity.
  - intros v e. apply oid_Raise.
Qed.

End Identifiers.

(** ** What [create_order] writes *)

Section CreateOrderMore.
Context `{Runtime}.

Lemma resolve_item_stored_for (db : database) (it it' : OrderItem) :
  resolve_item db it = Ok it' -> stored_for it it'.
Proof.
  unfold resolve_item, stored_for. destruct (unit_price it) as [q|] eqn:Hq.
  - intros [= <-]. repeat split. exists q. split; [exact Hq|]. congruence.
  - destruct (oid _) as [o|e]; [|discriminate]. rewrite result_bind_Ok.
    destruct (List.find _ _) as [m|]; [|discriminate].
    destruct (truthy _); [|discriminate].
    destruct (py_float _) as [p|e]; [|discriminate].
    intros [= <-]. repeat split. exists p. split; [reflexivity|]. discriminate.
Qed.

(** [create_order] writes at most one document: when it succeeds, the
    order collection is the old one followed by the new order, which has
    the generated identifier, the identifier returned is its string form,
    and no other collection changes; when it raises, the store is as it
    was. *)
Theorem create_order_writes_one_order (new_id : ObjectId) (payload : Order)
    (db db' : database) (out : result OrderCreated) :
  create_order new_id payload db = (db', out) ->
  match out with
  | Ok r =>
      created_id r = ObjectId_str new_id
      /\ (exists stored,
            collection db' "order" = collection db "order" ++ [stored]
            /\ stored !! "_id" = Some (VOid new_id))
      /\ (forall name, name <> "order"%string -> db' !! name = db !! name)
  | Raise _ => db' = db
  end.
Proof.
  destruct out as [r|e]; intros Hrun.
  - apply create_order_Ok_inv in Hrun as (its & _ & -> & ->).
    split; [reflexivity|]. split.
    + eexists. split; [apply collection_with_order|]. apply lookup_insert_eq.
    + intros name Hne. unfold with_order. apply lookup_insert_ne. congruence.
  - apply create_order_Raise_inv in Hrun as [-> _]. reflexivity.
Qed.

(** The order that [create_order] stores is the payload, item for item:
    same customer, installer, status, date and notes; every item with its
    reference and quantity and with a price, the one given if one was
    given; and the total that is returned. *)
Theorem stored_order_is_the_payload (new_id : ObjectId) (payload : Order)
    (db db' : database) (r : OrderCreated) :
  create_order new_id payload db = (db', Ok r) ->
  exists its,
    Forall2 stored_for (items payload) its
    /\ last_order db'
       = Some (stored_as new_id
                 (Order_dump {| customer_id := customer_id payload;
                                installer_id := installer_id payload;
                                items := its;
                                status := status payload;
                                scheduled_date := scheduled_date payload;
                                total := Some (created_total r);
                                notes := notes payload |})).
Proof.
  intros Hrun. apply create_order_Ok_inv in Hrun as (its & Hits & -> & ->).
  exists its. split; [|apply last_order_with_order].
  apply mapM_result_Ok_Forall2 in Hits.
  eapply Forall2_impl; [exact Hits|]. intros it it'. apply resolve_item_stored_for.
Qed.

Lemma resolve_item_price_error (db : database) (item : OrderItem) (o : ObjectId)
    (m : doc) (v : value) (e : exn) :
  unit_price item = None ->
  ObjectId_of_str (material_id item) = Some o ->
  List.find (has_id o) (collection db "material") = Some m ->
  m !! "price" = Some v ->
  py_float v = Raise e ->
  resolve_item db item = Raise e.
Proof.
  intros Hnone Ho Hm Hv He. unfold resolve_item.
  rewrite Hnone, (oid_of_str _ _ Ho), result_bind_Ok, Hm.
  rewrite (found_by_id_truthy _ _ _ Hm). unfold dict_get. rewrite Hv. simpl.
  rewrite He. reflexivity.
Qed.

(** Only a missing [price] counts as 0.  When the material of the first
    item that needs a price has a [price] that [float()] refuses, the
    exception of [float()] ends the request and nothing is stored; for a
    [price] that is [None] it is a [TypeError]. *)
Theorem material_price_must_be_a_number (new_id : ObjectId) (payload : Order)
    (db : database) (pre post : list OrderItem) (item : OrderItem) (o : ObjectId)
    (m : doc) (v : value) :
  items payload = pre ++ item :: post ->
  Forall (fun it => exists it', resolve_item db it = Ok it') pre ->
  unit_price item = None ->
  ObjectId_of_str (material_id item) = Some o ->
  List.find (has_id o) (collection db "material") = Some m ->
  m !! "price" = Some v ->
  (forall e, py_float v = Raise e -> create_order new_id payload db = (db, Raise e))
  /\ (v = VNone -> create_order new_id payload db = (db, Raise TypeError)).
Proof.
  intros Hsplit Hpre Hnone Ho Hm Hv.
  assert (Hgen : forall e, py_float v = Raise e ->
                           create_order new_id payload db = (db, Raise e)).
  { intros e He. rewrite create_order_run, Hsplit.
    rewrite (mapM_result_first_Raise (resolve_item db) pre post item e Hpre);
      [reflexivity|].
    eapply resolve_item_price_error; eassumption. }
  split; [exact Hgen|]. intros ->. apply Hgen. reflexivity.
Qed.

(** The loop stops at the first item that cannot be priced: the exception
    is the one of that item, nothing is stored, and the items after it
    play no part. *)
Theorem create_order_stops_at_first_failure (new_id : ObjectId) (payload : Order)
    (db : database) (pre post : list OrderItem) (item : OrderItem) (e : exn) :
  items payload = pre ++ item :: post ->
  Forall (fun it => exists it', resolve_item db it = Ok it') pre ->
  resolve_item db item = Raise e ->
  create_order new_id payload db = (db, Raise e)
  /\ (forall post',
        create_order new_id (set_items payload (pre ++ item :: post')) db
        = (db, Raise e)).
Proof.
  intros Hsplit Hpre Hitem. split.
  - rewrite create_order_run, Hsplit.
    rewrite (mapM_result_first_Raise (resolve_item db) pre post item e Hpre Hitem).
    reflexivity.
  - intros post'. rewrite create_order_run. cbn [items set_items].
    rewrite (mapM_result_first_Raise (resolve_item db) pre post' item e Hpre Hitem).
    reflexivity.
Qed.

Lemma resolved_items_checked (db : database) (l its : list OrderItem) :
  Forall2 (fun x y => resolve_item db x = Ok y) l its ->
  Forall (fun it => OrderItem_ok it = true) l ->
  Forall (fun it => PrimFloat.ltb 0 (quantity it) = true /\ is_Some (unit_price it)) its.
Proof.
  induction 1 as [|x y l its Hxy _ IH]; intros Hall; [constructor|].
  inversion Hall as [|? ? Hx Hl]; subst. constructor; [|apply IH, Hl].
  apply resolve_item_stored_for in Hxy as (_ & Hq & p & Hp & _).
  unfold OrderItem_ok in Hx. apply andb_true_iff in Hx as [Hx _].
  rewrite Hq, Hp. split; [exact Hx|eauto].
Qed.

(** [POST /orders] checks the body first.  A body with an item whose
    quantity is not above zero or whose price is below zero, or with a
    total below zero, is refused and nothing is stored; and every order it
    stores has items whose quantity is above zero and whose price is set. *)
Theorem post_orders_checks_the_body (new_id : ObjectId) (body : OrderFields)
    (db : database) :
  (Exists (fun it => PrimFloat.ltb 0 (quantity it) = false
                     \/ exists p, unit_price it = Some p /\ PrimFloat.leb 0 p = false)
     (default [] (f_items body))
   \/ (exists t, f_total body = Some t /\ PrimFloat.leb 0 t = false) ->
   post_orders new_id body db = (db, Raise RequestValidationError))
  /\ (forall db' r,
        post_orders new_id body db = (db', Ok r) ->
        exists stored its,
          last_order db' = Some stored
          /\ stored !! "items" = Some (VList (OrderItem_dump <$> its))
          /\ length its = length (default [] (f_items body))
          /\ Forall (fun it => PrimFloat.ltb 0 (quantity it) = true
                               /\ is_Some (unit_price it)) its).
Proof.
  split.
  - intros Hbad. unfold post_orders. rewrite M_bind_run, lift_run.
    unfold Order_init.
    assert (Hno : forallb OrderItem_ok (default [] (f_items body)) && ge0 (f_total body)
                  = false).
    { apply andb_false_iff. destruct Hbad as [Hex|(t & Ht & Hlt)].
      - left. apply not_true_iff_false. rewrite forallb_forall.
        intros Hall. apply List.Exists_exists in Hex as (it & Hin & Hit).
        specialize (Hall it Hin). unfold OrderItem_ok in Hall.
        apply andb_true_iff in Hall as [Hq Hp].
        destruct Hit as [Hq'|(p & Hp' & Hlt)]; [congruence|].
        rewrite Hp' in Hp. simpl in Hp. congruence.
      - right. rewrite Ht. exact Hlt. }
    rewrite Hno. reflexivity.
  - intros db' r. unfold post_orders. rewrite M_bind_run, lift_run.
    unfold Order_init.
    destruct (forallb OrderItem_ok (default [] (f_items body)) && ge0 (f_total body))
      eqn:Hok; [|discriminate].
    apply andb_true_iff in Hok as [Hitems _].
    intros Hrun. apply create_order_Ok_inv in Hrun as (its & Hits & -> & _).
    cbn [items] in Hits. apply mapM_result_Ok_Forall2 in Hits.
    eexists _, its. split; [apply last_order_with_order|].
    split; [reflexivity|]. split; [symmetry; eapply Forall2_length, Hits|].
    apply (resolved_items_checked db _ _ Hits).
    apply List.Forall_forall. rewrite forallb_forall in Hitems. exact Hitems.
Qed.

End CreateOrderMore.

(** ** What the listings select *)

Lemma field_holds_is (p : value -> bool) (v : value) (d : doc) (k : string) :
  (forall x, p x = true <-> x = v) ->
  (forall l, v <> VList l) ->
  field_holds p d k = true <-> field_is v d k.
Proof.
  intros Hp Hv. unfold field_holds, field_is.
  destruct (d !! k) as [x|]; [|split; [discriminate|intros [[=]|(l & [=] & _)]]].
  assert (Hscalar : (forall l, x <> VList l) ->
                    p x = true <-> Some x = Some v \/ exists l, Some x = Some (VList l) /\ In v l).
  { intros Hx. rewrite Hp. split.
    - intros ->. left. reflexivity.
    - intros [[= ->]|(l & [= ->] & _)]; [reflexivity|]. destruct (Hx l eq_refl). }
  destruct x as [| | | | | | |l|]; try (apply Hscalar; discriminate).
  rewrite existsb_exists. split.
  - intros (x & Hin & Hx). apply Hp in Hx as ->. right. eauto.
  - intros [[= <-]|(l' & [= <-] & Hin)]; [destruct (Hv l eq_refl)|].
    exists v. split; [exact Hin|]. apply Hp. reflexivity.
Qed.

Lemma is_string_eqb (s : string) (x : value) :
  match x with VStr s' => String.eqb s s' | _ => false end = true <-> x = VStr s.
Proof.
  destruct x; try (split; discriminate). rewrite String.eqb_eq.
  split; [intros ->; reflexivity|intros [= ->]; reflexivity].
Qed.

Lemma is_bool_eqb (b : bool) (x : value) :
  match x with VBool b' => Bool.eqb b b' | _ => false end = true <-> x = VBool b.
Proof.
  destruct x; try (split; discriminate). rewrite Bool.eqb_true_iff.
  split; [intros ->; reflexivity|intros [= ->]; reflexivity].
Qed.

Section ListingsMore.
Context `{Runtime}.

Lemma list_installers_unfiltered (db : database) :
  list_installers None db = (db, mapM serialize (collection db "installer")).
Proof. unfold list_installers. rewrite M_bind_run, get_documents_all. reflexivity. Qed.

Lemma list_materials_unfiltered (db : database) :
  list_materials None db = (db, mapM serialize (collection db "material")).
Proof. unfold list_materials. rewrite M_bind_run, get_documents_all. reflexivity. Qed.

(** [GET /installers]: without [active] every installer is returned; with
    [active] given, [False] as well as [True], exactly the installers
    whose [active] field has that value, in the order of the store. *)
Theorem list_installers_by_active (db : database) (b : bool) :
  list_installers None db = (db, mapM serialize (collection db "installer"))
  /\ exists keep : doc -> bool,
       list_installers (Some b) db
       = (db, mapM serialize (List.filter keep (collection db "installer")))
       /\ forall d, keep d = true <-> field_is (VBool b) d "active".
Proof.
  split.
  - apply list_installers_unfiltered.
  - eexists. split; [reflexivity|]. intros d. cbv beta.
    rewrite andb_true_r. apply field_holds_is; [apply is_bool_eqb|discriminate].
Qed.

(** [GET /materials]: without [search], or with an empty one, every
    material is returned.  Any other [search] is a regular expression with
    the option [i], looked for in [name] and [sku]; the request fails when
    the store refuses it.  A [search] of ASCII characters without meaning
    in a regular expression returns, among the materials whose [name] and
    [sku] are ASCII text, exactly those whose [name] or [sku] contains it,
    ASCII letters compared without case. *)
Theorem list_materials_filter (db : database) (q : string) :
  list_materials None db = (db, mapM serialize (collection db "material"))
  /\ list_materials (Some ""%string) db = list_materials None db
  /\ (q <> ""%string ->
      match Regex.matcher q "i" with
      | Some matches =>
          exists keep : doc -> bool,
            list_materials (Some q) db
            = (db, mapM serialize (List.filter keep (collection db "material")))
            /\ forall d, keep d = true <->
                         field_matches matches d "name" \/ field_matches matches d "sku"
      | None => list_materials (Some q) db = (db, Raise OperationFailure)
      end)
  /\ (plain q = true -> q <> ""%string ->
      exists keep : doc -> bool,
        list_materials (Some q) db
        = (db, mapM serialize (List.filter keep (collection db "material")))
        /\ forall d, ascii_field d "name" -> ascii_field d "sku" ->
                     (keep d = true <->
                      field_contains_ci q d "name" \/ field_contains_ci q d "sku")).
Proof.
  assert (Hrun : forall matches, q <> ""%string ->
            Regex.matcher q "i" = Some matches ->
            exists keep : doc -> bool,
              list_materials (Some q) db
              = (db, mapM serialize (List.filter keep (collection db "material")))
              /\ forall d, keep d = true <->
                           field_matches matches d "name" \/ field_matches matches d "sku").
  { intros matches Hne Hm. eexists. split.
    - unfold list_materials. simpl truthy.
      apply String.eqb_neq in Hne. rewrite Hne. cbn [negb].
      rewrite M_bind_run. unfold get_documents, find.
      cbn [filter_pred any_of all_of cond_pred].
      rewrite Hm. cbn [mbind result_bind]. reflexivity.
    - intros d. cbv beta.
      rewrite !orb_true_iff, !andb_true_iff, !field_holds_matches. split.
      + intros [[Hn _]|[[Hc _]|Hf]]; [left|right|discriminate]; assumption.
      + intros [Hn|Hc]; [left|right; left]; split; auto. }
  split; [|split; [reflexivity|split]].
  - apply list_materials_unfiltered.
  - intros Hne. destruct (Regex.matcher q "i") as [matches|] eqn:Hm.
    + apply Hrun; [exact Hne|reflexivity].
    + unfold list_materials. simpl truthy.
      apply String.eqb_neq in Hne. rewrite Hne. cbn [negb].
      rewrite M_bind_run. unfold get_documents, find.
      cbn [filter_pred any_of all_of cond_pred]. rewrite Hm. reflexivity.
  - intros Hplain Hne.
    destruct (Hrun _ Hne (matcher_plain _ Hplain)) as (keep & Hlist & Hkeep).
    exists keep. split; [exact Hlist|]. intros d Hn Hs.
    rewrite Hkeep, !field_matches_plain by assumption. reflexivity.
Qed.

Lemma string_field_is_spec (x : option string) (d : doc) (k : string) :
  string_field_is x d k = true <->
  forall s, x = Some s -> s <> ""%string -> field_is (VStr s) d k.
Proof.
  unfold string_field_is. destruct x as [s|].
  - destruct (String.eqb s "") eqn:Hs.
    + apply String.eqb_eq in Hs as ->. split; [|reflexivity].
      intros _ s [= <-] Hne. destruct (Hne eq_refl).
    + apply String.eqb_neq in Hs.
      rewrite (field_holds_is _ (VStr s)); [|apply is_string_eqb|discriminate].
      split; [intros Hf s' [= <-] _; exact Hf|intros Hf; apply Hf; auto].
  - split; [intros _ s [=]|reflexivity].
Qed.

(** [GET /orders] enriches exactly the orders that pass both filters, in
    the order of the store: an order is listed when its [status] is the
    one asked for and its [customer_id] is the one asked for, each
    condition holding when it is absent or empty; so a successful listing
    has one entry for each such order. *)
Theorem list_orders_selects (status cust : option string) (db : database) :
  list_orders status cust db = mapM enrich (listed_orders status cust db) db
  /\ (forall d,
        In d (listed_orders status cust db) <->
        In d (collection db "order")
        /\ (forall s, status = Some s -> s <> ""%string -> field_is (VStr s) d "status")
        /\ (forall c, cust = Some c -> c <> ""%string ->
                      field_is (VStr c) d "customer_id"))
  /\ (forall out, list_orders status cust db = (db, Ok out) ->
                  length out = length (listed_orders status cust db)).
Proof.
  split; [|split].
  - rewrite list_orders_run, mapM_enrich_run. reflexivity.
  - intros d. unfold listed_orders, order_selected.
    rewrite filter_In, andb_true_iff, !string_field_is_spec. reflexivity.
  - intros out. rewrite list_orders_run. intros [= Hout].
    apply mapM_result_Ok_Forall2 in Hout. symmetry. eapply Forall2_length, Hout.
Qed.

(** No listing writes to the store, whether it succeeds or raises. *)
Theorem listings_leave_the_store (db : database) (q : option string)
    (active : option bool) (status cust : option string) :
  (list_customers q db).1 = db
  /\ (list_installers active db).1 = db
  /\ (list_materials q db).1 = db
  /\ (list_orders status cust db).1 = db.
Proof.
  assert (Hfind : forall name f (k : list doc -> M (list doc)),
            (forall docs d, (k docs d).1 = d) ->
            ((get_documents name f ≫= k) db).1 = db).
  { intros name f k Hk. rewrite M_bind_run. unfold get_documents, find.
    destruct (filter_pred f) as [p|e]; [|reflexivity].
    rewrite result_bind_Ok. apply Hk. }
  split; [|split; [|split]].
  - apply Hfind. reflexivity.
  - apply Hfind. reflexivity.
  - apply Hfind. reflexivity.
  - rewrite list_orders_run. reflexivity.
Qed.

End ListingsMore.

(** ** What is written is what is listed *)

Lemma mapM_result_snoc {A B} (f : A -> result B) (l : list A) (x : A) :
  mapM f (l ++ [x]) = (k ← mapM f l; y ← f x; Ok (k ++ [y])).
Proof.
  induction l as [|a l IH]; simpl app.
  - rewrite mapM_result_cons. destruct (f x); reflexivity.
  - rewrite !mapM_result_cons. destruct (f a) as [b|e]; [|reflexivity].
    rewrite !result_bind_Ok, IH. destruct (mapM f l) as [k|e]; [|reflexivity].
    rewrite !result_bind_Ok. destruct (f x); reflexivity.
Qed.

Lemma find_app_None {A} (f : A -> bool) (l l' : list A) :
  List.find f l = None -> List.find f (l ++ l') = List.find f l'.
Proof.
  induction l as [|a l IH]; [reflexivity|]. simpl.
  destruct (f a); [discriminate|]. exact IH.
Qed.

Lemma has_id_stored_as (o : ObjectId) (record : doc) :
  has_id o (stored_as o record) = true.
Proof.
  unfold has_id, field_holds, stored_as. rewrite lookup_insert_eq.
  rewrite ObjectId_eqb_refl. reflexivity.
Qed.

Section RoundTrips.
Context `{Runtime}.

Lemma serialize_plain_record (o : ObjectId) (record : doc) :
  plain_record record ->
  serialize (stored_as o record) = Ok (listed_record o record).
Proof.
  intros (Hid & _ & Hitems). unfold serialize, stored_as, listed_record, dict_get.
  rewrite lookup_insert_eq. rewrite (delete_insert_id record "_id") by exact Hid.
  rewrite lookup_insert_ne by discriminate. rewrite Hitems. reflexivity.
Qed.

Lemma listing_after_insert (name : string) (o : ObjectId) (record : doc)
    (db : database) (out : list doc) :
  plain_record record ->
  mapM serialize (collection db name) = Ok out ->
  (create_document o name record db).2 = Ok (ObjectId_str o)
  /\ mapM serialize (collection (create_document o name record db).1 name)
     = Ok (out ++ [listed_record o record]).
Proof.
  intros Hplain Hout. split; [reflexivity|].
  unfold create_document. rewrite M_bind_run. unfold insert_one, mret, M_ret.
  cbn [fst]. unfold collection at 1. rewrite lookup_insert_eq. cbn [default from_option]. unfold id.
  rewrite mapM_result_snoc, Hout, result_bind_Ok.
  change (<["_id" := VOid o]> record) with (stored_as o record).
  rewrite (serialize_plain_record _ _ Hplain). reflexivity.
Qed.

(** A customer, an installer or a material that is created is returned by
    the next unfiltered listing, after the records that were there, with
    the identifier that the creation returned under ["id"] and its fields
    as given. *)
Theorem created_records_are_listed (o : ObjectId) (db : database) (out : list doc) :
  (forall c, list_customers None db = (db, Ok out) ->
     (create_customer o c db).2 = Ok (ObjectId_str o)
     /\ (list_customers None (create_customer o c db).1).2
        = Ok (out ++ [listed_record o (Customer_dump c)]))
  /\ (forall i, list_installers None db = (db, Ok out) ->
        (create_installer o i db).2 = Ok (ObjectId_str o)
        /\ (list_installers None (create_installer o i db).1).2
           = Ok (out ++ [listed_record o (Installer_dump i)]))
  /\ (forall m, list_materials None db = (db, Ok out) ->
        (create_material o m db).2 = Ok (ObjectId_str o)
        /\ (list_materials None (create_material o m db).1).2
           = Ok (out ++ [listed_record o (Material_dump m)])).
Proof.
  split; [|split].
  - intros c. rewrite list_customers_unfiltered. intros [= Hout].
    rewrite list_customers_unfiltered. cbn [snd].
    apply (listing_after_insert "customer" o (Customer_dump c) db out);
      [repeat split|exact Hout].
  - intros i. rewrite list_installers_unfiltered. intros [= Hout].
    rewrite list_installers_unfiltered. cbn [snd].
    apply (listing_after_insert "installer" o (Installer_dump i) db out);
      [repeat split|exact Hout].
  - intros m. rewrite list_materials_unfiltered. intros [= Hout].
    rewrite list_materials_unfiltered. cbn [snd].
    apply (listing_after_insert "material" o (Material_dump m) db out);
      [repeat split|exact Hout].
Qed.

End RoundTrips.

Section OrderRoundTrip.
Context `{Runtime}.

Lemma listed_orders_all (db : database) :
  listed_orders None None db = collection db "order".
Proof.
  unfold listed_orders. rewrite (filter_ext _ (fun _ => true)) by reflexivity.
  apply filter_all.
Qed.

Lemma collection_after_create_customer (o : ObjectId) (c : Customer) (db : database)
    (name : string) :
  collection (create_customer o c db).1 name
  = if String.eqb name "customer"
    then collection db "customer" ++ [stored_as o (Customer_dump c)]
    else collection db name.
Proof.
  unfold create_customer, create_document. rewrite M_bind_run.
  unfold insert_one, mret, M_ret. cbn [fst]. unfold collection at 1.
  destruct (String.eqb name "customer") eqn:Hn.
  - apply String.eqb_eq in Hn as ->. rewrite lookup_insert_eq. reflexivity.
  - apply String.eqb_neq in Hn. rewrite lookup_insert_ne by congruence. reflexivity.
Qed.

(** An order created for a customer that was just created is listed with
    that customer's name: the identifier returned by [POST /customers],
    given as [customer_id], is decoded and found again by [GET /orders].
    The order comes last in the listing, under the identifier that
    [POST /orders] returned, and without an installer it has no installer
    name. *)
Theorem order_lists_its_customer (cid new_id : ObjectId) (c : Customer)
    (payload : Order) (db db2 : database) (r : OrderCreated) :
  length (oid_binary cid) = 12%nat ->
  List.find (has_id cid) (collection db "customer") = None ->
  customer_id payload = ObjectId_str cid ->
  installer_id payload = None ->
  create_order new_id payload (create_customer cid c db).1 = (db2, Ok r) ->
  (forall out, list_orders None None db2 = (db2, Ok out) ->
     exists o, last out = Some o
               /\ o !! "id" = Some (VStr (created_id r))
               /\ o !! "customer_name" = Some (VStr (cust_name c))
               /\ o !! "installer_name" = Some VNone)
  /\ (collection db "order" = [] ->
      exists o, list_orders None None db2 = (db2, Ok [o])).
Proof.
  intros Hcid Hfresh Hcust Hinst Hrun.
  apply create_order_Ok_inv in Hrun as (its & _ & -> & ->).
  set (t := round2 (order_sum its)).
  set (stored := set_total (set_items payload its) (Some t)).
  set (db1 := (create_customer cid c db).1).
  assert (Hfind : List.find (has_id cid) (collection (with_order db1 new_id stored) "customer")
                  = Some (stored_as cid (Customer_dump c))).
  { rewrite collection_with_order_ne by discriminate.
    subst db1. rewrite collection_after_create_customer. cbn [String.eqb].
    simpl. rewrite (find_app_None _ _ _ Hfresh). simpl.
    rewrite has_id_stored_as. reflexivity. }
  assert (Henr : enriched (with_order db1 new_id stored)
                   (<["_id" := VOid new_id]> (Order_dump stored))
                 = Ok (<["installer_name" := VNone]>
                         (<["customer_name" := VStr (cust_name c)]>
                            (<["id" := VStr (ObjectId_str new_id)]> (Order_dump stored))))).
  { unfold enriched, referenced, dict_get.
    change ((<["_id" := VOid new_id]> (Order_dump stored) : doc) !! "customer_id")
      with (Some (VStr (customer_id payload))).
    change ((<["_id" := VOid new_id]> (Order_dump stored) : doc) !! "installer_id")
      with (Some (opt_value VStr (installer_id payload))).
    rewrite Hcust, Hinst. cbn [default from_option opt_value]. unfold id.
    rewrite (ObjectId_str_truthy _ Hcid), (oid_ObjectId_str _ Hcid), result_bind_Ok, Hfind.
    rewrite result_bind_Ok. cbn [truthy]. rewrite result_bind_Ok.
    rewrite stored_order_serializes, result_bind_Ok.
    unfold name_of. rewrite (found_by_id_truthy _ _ _ Hfind). reflexivity. }
  assert (Horders : listed_orders None None (with_order db1 new_id stored)
                    = collection db "order" ++ [<["_id" := VOid new_id]> (Order_dump stored)]).
  { rewrite listed_orders_all, collection_with_order. subst db1.
    rewrite collection_after_create_customer. reflexivity. }
  split.
  - intros out. rewrite list_orders_run, Horders, mapM_result_snoc, Henr.
    destruct (mapM _ (collection db "order")) as [k|e]; [|discriminate].
    rewrite !result_bind_Ok. intros [= <-].
    eexists. split; [apply last_snoc|]. split; [|split]; reflexivity.
  - intros Hempty. rewrite list_orders_run, Horders, Hempty. simpl app.
    rewrite mapM_result_cons, Henr. eexists. reflexivity.
Qed.

End OrderRoundTrip.

(** ** The diagnostic endpoint *)

(** [GET /test] never reports the name of the database or how it is
    configured in the code: whatever the connection, [database_url] and
    [database_name] only say whether the environment variables
    [DATABASE_URL] and [DATABASE_NAME] are set to a non-empty value.  The
    backend is always reported as running, and [collections] holds the
    first ten collection names of a working connection and is empty
    otherwise. *)
Theorem test_database_reports (db : option Connection)
    (getenv : string -> option string) :
  test_database db getenv !! "database_url"
  = Some (VStr (if env_set getenv "DATABASE_URL" then "✅ Set" else "❌ Not Set"))
  /\ test_database db getenv !! "database_name"
     = Some (VStr (if env_set getenv "DATABASE_NAME" then "✅ Set" else "❌ Not Set"))
  /\ test_database db getenv !! "backend" = Some (VStr "✅ Running")
  /\ exists names,
       test_database db getenv !! "collections" = Some (VList (VStr <$> names))
       /\ (length names <= 10)%nat
       /\ names = match db with
                  | Some c => match conn_collections c with
                              | inr all => take 10 all
                              | inl _ => []
                              end
                  | None => []
                  end.
Proof.
  unfold test_database. split; [|split; [|split]].
  - rewrite lookup_insert_ne by discriminate. apply lookup_insert_eq.
  - apply lookup_insert_eq.
  - destruct db as [c|]; [destruct (conn_collections c)|];
      repeat (rewrite lookup_insert_ne by discriminate); apply lookup_insert_eq.
  - eexists. split; [|split; [|reflexivity]].
    + destruct db as [c|]; [destruct (conn_collections c)|];
        repeat (rewrite lookup_insert_ne by discriminate);
        rewrite lookup_insert_eq; reflexivity.
    + destruct db as [c|]; [destruct (conn_collections c)|]; cbn [length]; try lia.
      rewrite length_take. lia.
Qed.

(** ** The further properties on the shop of the examples *)

Lemma serialize_keeps_other_fields_witness :
  serialize (Scenario.stored_customer Scenario.id_alice (Scenario.customer_named "Alice" None))
  = Ok (Scenario.listed_customer Scenario.id_alice (Scenario.customer_named "Alice" None))
  /\ Scenario.listed_customer Scenario.id_alice (Scenario.customer_named "Alice" None)
       !! "name"
     = Scenario.stored_customer Scenario.id_alice (Scenario.customer_named "Alice" None)
       !! "name".
Proof.
  assert (Hs : serialize (Scenario.stored_customer Scenario.id_alice
                            (Scenario.customer_named "Alice" None))
               = Ok (Scenario.listed_customer Scenario.id_alice
                       (Scenario.customer_named "Alice" None))).
  { apply serialize_stored_record; reflexivity. }
  split; [exact Hs|].
  apply (proj1 (serialize_keeps_other_fields _ _ Hs)); discriminate.
Defined.

Lemma serialize_items_in_place_witness :
  exists l',
    (<["id" := VStr (ObjectId_str Scenario.id_order)]>
       (Order_dump (Scenario.order_of "abc" [Scenario.priced_line])) : doc) !! "items"
    = Some (VList l')
    /\ Forall2 item_serialized [OrderItem_dump Scenario.priced_line] l'.
Proof.
  apply (serialize_items_in_place
           (<["_id" := VOid Scenario.id_order]>
              (Order_dump (Scenario.order_of "abc" [Scenario.priced_line])))).
  - apply stored_order_serializes.
  - reflexivity.
Defined.

Lemma serialize_failures_witness :
  serialize (<["items" := VInt 5]> ∅) = Raise TypeError
  /\ serialize (<["items" := VList [VInt 5]]> ∅) = Raise AttributeError.
Proof.
  split.
  - apply (proj1 (serialize_failures (<["items" := VInt 5]> ∅) (VInt 5)
                    (lookup_insert_eq _ _ _))).
    reflexivity.
  - apply (proj1 (proj2 (serialize_failures (<["items" := VList [VInt 5]]> ∅)
                           (VList [VInt 5]) (lookup_insert_eq _ _ _)))
             [VInt 5] eq_refl).
    constructor. reflexivity.
Defined.

Lemma oid_of_string_form_witness :
  oid (VStr "000000000000000000000005") = Ok Scenario.id_free
  /\ oid (VStr "abc") = Raise (HTTPException 400 "Ogiltigt ID").
Proof.
  destruct (oid_of_string_form Scenario.id_free eq_refl) as (Hok & Hlen & _).
  split; [exact Hok|]. apply Hlen. discriminate.
Defined.

Lemma create_order_writes_one_order_witness :
  exists stored,
    collection (Scenario.shop_with_order "abc") "order"
    = collection Scenario.shop "order" ++ [stored]
    /\ stored !! "_id" = Some (VOid Scenario.id_order).
Proof.
  pose proof (create_order_writes_one_order Scenario.id_order
                (Scenario.order_of "abc" []) Scenario.shop _ _
                (create_order_Ok_of Scenario.id_order (Scenario.order_of "abc" [])
                   Scenario.shop [] eq_refl)) as Hw.
  cbv beta iota in Hw. destruct Hw as (_ & Hs & _).
  rewrite shop_with_order_run. exact Hs.
Defined.

Lemma stored_order_is_the_payload_witness :
  exists db' r its,
    create_order Scenario.id_order
      (Scenario.order_of (ObjectId_str Scenario.id_alice) [Scenario.screws_unpriced])
      Scenario.shop = (db', Ok r)
    /\ Forall2 stored_for [Scenario.screws_unpriced] its
    /\ last_order db'
       = Some (stored_as Scenario.id_order
                 (Order_dump (set_total
                                (Scenario.order_of (ObjectId_str Scenario.id_alice) its)
                                (Some (created_total r))))).
Proof.
  assert (Hits : mapM (resolve_item Scenario.shop) [Scenario.screws_unpriced]
                 = Ok [set_unit_price Scenario.screws_unpriced 2.5%float]).
  { rewrite mapM_result_cons. unfold resolve_item.
    cbn [unit_price Scenario.screws_unpriced].
    rewrite (oid_ObjectId_str Scenario.id_screw eq_refl), result_bind_Ok.
    rewrite shop_finds_screw. vm_compute. reflexivity. }
  pose proof (create_order_Ok_of Scenario.id_order
                (Scenario.order_of (ObjectId_str Scenario.id_alice)
                   [Scenario.screws_unpriced])
                Scenario.shop _ Hits) as Hrun.
  destruct (stored_order_is_the_payload _ _ _ _ _ Hrun) as (its & Hfor & Hlast).
  eexists _, _, its. split; [exact Hrun|]. split; [exact Hfor|exact Hlast].
Defined.

Lemma material_price_must_be_a_number_witness :
  create_order Scenario.id_order
    (Scenario.order_of (ObjectId_str Scenario.id_alice) [Scenario.screws_unpriced])
    Scenario.unpriced_catalogue
  = (Scenario.unpriced_catalogue, Raise TypeError).
Proof.
  apply (proj2 (material_price_must_be_a_number Scenario.id_order
                  (Scenario.order_of (ObjectId_str Scenario.id_alice)
                     [Scenario.screws_unpriced])
                  Scenario.unpriced_catalogue [] [] Scenario.screws_unpriced
                  Scenario.id_screw Scenario.unpriced_screw VNone
                  eq_refl (List.Forall_nil _) eq_refl
                  ltac:(vm_compute; reflexivity)
                  ltac:(unfold Scenario.unpriced_catalogue, collection;
                        rewrite lookup_insert_eq; cbn [List.find default from_option id];
                        unfold Scenario.unpriced_screw; rewrite has_id_inserted;
                        reflexivity)
                  ltac:(reflexivity))).
  reflexivity.
Defined.

Lemma create_order_stops_at_first_failure_witness :
  create_order Scenario.id_order
    (Scenario.order_of (ObjectId_str Scenario.id_alice)
       [Scenario.malformed_line; Scenario.dangling_line])
    Scenario.shop
  = (Scenario.shop, Raise (HTTPException 400 "Ogiltigt ID"))
  /\ create_order Scenario.id_order
       (Scenario.order_of (ObjectId_str Scenario.id_alice)
          [Scenario.malformed_line; Scenario.screws_unpriced])
       Scenario.shop
     = (Scenario.shop, Raise (HTTPException 400 "Ogiltigt ID")).
Proof.
  destruct (create_order_stops_at_first_failure Scenario.id_order
              (Scenario.order_of (ObjectId_str Scenario.id_alice)
                 [Scenario.malformed_line; Scenario.dangling_line])
              Scenario.shop [] [Scenario.dangling_line] Scenario.malformed_line
              (HTTPException 400 "Ogiltigt ID")
              eq_refl (List.Forall_nil _) eq_refl) as [Hrun Hany].
  split; [exact Hrun|]. exact (Hany [Scenario.screws_unpriced]).
Defined.

Lemma order_lists_its_customer_witness :
  exists db2 r o,
    create_order Scenario.id_order (Scenario.order_of (ObjectId_str Scenario.id_free) [])
      (create_customer Scenario.id_free (Scenario.customer_named "Carol" None)
         Scenario.shop).1
    = (db2, Ok r)
    /\ list_orders None None db2 = (db2, Ok [o])
    /\ o !! "id" = Some (VStr (created_id r))
    /\ o !! "customer_name" = Some (VStr "Carol")
    /\ o !! "installer_name" = Some VNone.
Proof.
  pose proof (create_order_Ok_of Scenario.id_order
                (Scenario.order_of (ObjectId_str Scenario.id_free) [])
                (create_customer Scenario.id_free (Scenario.customer_named "Carol" None)
                   Scenario.shop).1 [] eq_refl) as Hrun.
  destruct (order_lists_its_customer Scenario.id_free Scenario.id_order
              (Scenario.customer_named "Carol" None)
              (Scenario.order_of (ObjectId_str Scenario.id_free) [])
              Scenario.shop _ _ eq_refl
              ltac:(rewrite shop_customers; vm_compute; reflexivity)
              eq_refl eq_refl Hrun) as [Hlast Hone].
  destruct (Hone shop_orders) as [o Ho].
  destruct (Hlast _ Ho) as (o' & Ho' & Hid & Hc & Hi).
  injection Ho' as <-.
  eexists _, _, o. split; [exact Hrun|]. split; [exact Ho|].
  split; [exact Hid|]. split; [exact Hc|exact Hi].
Defined.
